(** * Annotation-to-training-format conversion and trainer adapters

    A shallow embedding of [backend/utils/model_utils.py] — the spaCy
    conversion loop of [train_spacy_model], the Rasa converter
    [annotations_to_rasa_nlu], [find_latest_rasa_model] and the orchestration
    of [train_rasa_model] — and of the routes [save_annotation] and
    [train_model] of [backend/app.py], with the properties of the written
    specification stated and settled against them, and further properties
    of the code.

    Conventions of the embedding.
    - A Python [str] is a list of characters ([pystr]); a character is a code
      point below 256.
    - A Python [int] is a [Z].
    - A value read by [json.load] is a [jval]; a JSON object is the list of
      its bindings in insertion order, with distinct keys.  An integer in
      it has at most 4300 digits, the decoder refusing more, so that [str]
      of it does not fail.
    - A Python exception is a value of [exn], identified by the [raise]
      statement (or builtin operation) that produced it.
    - The file system is a finite map from paths to files; the functions
      thread it explicitly.  What lies outside the repository (the clock, the
      process environment, [json], [yaml], the Rasa subprocess, spaCy) is a
      field of the [host] record.

    Limits of the embedding.
    - Paths are POSIX paths.  The file system holds regular files only: a
      directory is there when a file lies under it, [glob] lists files, and
      the directory part of its pattern is taken literally.
    - Writing a file succeeds; reading or copying a file that is not there
      raises.  The subprocess is started and returns; [import yaml]
      succeeds.
    - The interpreter runs with its default limit of 4300 digits on the
      conversions between [str] and [int]. *)

From Stdlib Require Import ZArith List Ascii String Lia SpecFloat Permutation.
From stdpp Require Import base option list gmap strings pretty sorting.

Open Scope Z_scope.

(** ** Python strings *)

Definition pystr := list ascii.

(** A string literal of the source. *)
Definition str (s : string) : pystr := list_ascii_of_string s.

Definition chr_eqb (a b : ascii) : bool := Ascii.eqb a b.

Definition NL : ascii := ascii_of_nat 10.
Definition SP : ascii := ascii_of_nat 32.

(** [str.isspace] on one character, for code points below 256:
    U+0009..U+000D, U+001C..U+0020, U+0085 and U+00A0. *)
Definition py_isspace (c : ascii) : bool :=
  let n := N_of_ascii c in
  ((9 <=? n)%N && (n <=? 13)%N) || ((28 <=? n)%N && (n <=? 32)%N)
  || (n =? 133)%N || (n =? 160)%N.

Fixpoint drop_while {A} (p : A -> bool) (l : list A) : list A :=
  match l with
  | [] => []
  | x :: l' => if p x then drop_while p l' else l
  end.

Definition py_lstrip (s : pystr) : pystr := drop_while py_isspace s.
Definition py_rstrip (s : pystr) : pystr := rev (drop_while py_isspace (rev s)).

(** [s.strip()] *)
Definition py_strip (s : pystr) : pystr := py_rstrip (py_lstrip s).

(** Index normalisation of a slice bound on a sequence of length [n]:
    a negative bound counts from the end, and every bound is clipped to
    [0..n]. *)
Definition clamp_index (n i : Z) : Z :=
  if i <? 0 then Z.max (i + n) 0 else Z.min i n.

(** [l[a:b]] *)
Definition py_slice {A} (l : list A) (a b : Z) : list A :=
  let n := Z.of_nat (length l) in
  let lo := clamp_index n a in
  let hi := clamp_index n b in
  take (Z.to_nat (hi - lo)) (drop (Z.to_nat lo) l).

(** [l[a:]] *)
Definition py_slice_from {A} (l : list A) (a : Z) : list A :=
  drop (Z.to_nat (clamp_index (Z.of_nat (length l)) a)) l.

(** [l[:b]] *)
Definition py_slice_to {A} (l : list A) (b : Z) : list A :=
  take (Z.to_nat (clamp_index (Z.of_nat (length l)) b)) l.

(** [s.replace("\n", " ")]: the pattern is one character long, so every
    occurrence is one position and the replacement is position-wise. *)
Definition replace_nl (s : pystr) : pystr :=
  map (fun c => if chr_eqb c NL then SP else c) s.

(** [sep.join(parts)] *)
Fixpoint py_join (sep : pystr) (parts : list pystr) : pystr :=
  match parts with
  | [] => []
  | [p] => p
  | p :: rest => p ++ sep ++ py_join sep rest
  end.

(** [str(n)] of an [int]: decimal, with a minus sign. *)
Definition int_to_str (z : Z) : pystr := str (pretty z).

(** ** Exceptions and results *)

Inductive py_class :=
  TypeError | ValueError | AttributeError | OverflowError | OSError.

(** The failures of the adapters carry the names the specification gives to
    the [raise] statements of the source; [exn_message] is the Python
    message. *)
Inductive exn :=
  | Builtin (c : py_class)
      (* raised by a coercion, an attribute access, an iteration or a file
         operation *)
  | DependencyUnavailable (msg : pystr)
      (* RuntimeError('spaCy is required for training: ' + str(e)) *)
  | MissingInput (msg : pystr)
      (* FileNotFoundError('annotations.json not found ...') *)
  | EmptyTrainingSet
      (* RuntimeError('No training data available in annotations.json') *)
  | SubprocessFailure (msg : pystr)
      (* RuntimeError("Rasa training failed. See training log: " ...) *)
  | ArtifactNotFound (msg : pystr)
      (* RuntimeError("Rasa trained but no model file found ...") *)
  | External (msg : pystr).
      (* raised inside json.load or inside spaCy *)

Definition exn_message (e : exn) : pystr :=
  match e with
  | Builtin _ => []
  | DependencyUnavailable m | MissingInput m | SubprocessFailure m
  | ArtifactNotFound m | External m => m
  | EmptyTrainingSet => str "No training data available in annotations.json"
  end.

Inductive result (A : Type) :=
  | Ok (a : A)
  | Raise (e : exn).
Arguments Ok {A} a.
Arguments Raise {A} e.

Definition rbind {A B} (r : result A) (k : A -> result B) : result B :=
  match r with
  | Ok a => k a
  | Raise e => Raise e
  end.

Declare Scope py_scope.
Delimit Scope py_scope with py.
Notation "x <- c ; k" := (rbind c (fun x => k))
  (at level 20, c at level 100, k at level 200, only parsing) : py_scope.
Notation "' p <- c ; k" := (rbind c (fun p => k))
  (at level 20, p pattern, c at level 100, k at level 200, only parsing)
  : py_scope.

(** A [for] loop whose body may raise: the first exception ends the loop. *)
Fixpoint rfold {A S} (body : S -> A -> result S) (s : S) (l : list A)
  : result S :=
  match l with
  | [] => Ok s
  | x :: l' => rbind (body s x) (fun s' => rfold body s' l')
  end.

(** ** JSON values *)

#[local] Set Warnings "-register-all".

Inductive jval :=
  | JNull
  | JBool (b : bool)
  | JInt (z : Z)
  | JFloat (f : spec_float)
  | JStr (s : pystr)
  | JArr (l : list jval)
  | JObj (d : list (pystr * jval)).

Definition pystr_eqb (a b : pystr) : bool := bool_decide (a = b).

(** [d.get(k)] on the bindings of a dict: [None] when the key is absent. *)
Fixpoint dict_get (d : list (pystr * jval)) (k : pystr) : option jval :=
  match d with
  | [] => None
  | (k', v) :: d' => if pystr_eqb k' k then Some v else dict_get d' k
  end.

(** [d.get(k, dflt)] *)
Definition dict_get_or (d : list (pystr * jval)) (k : pystr) (dflt : jval)
  : jval :=
  match dict_get d k with
  | Some v => v
  | None => dflt
  end.

(** [v.get]: only a dict has the attribute. *)
Definition py_as_dict (v : jval) : result (list (pystr * jval)) :=
  match v with
  | JObj d => Ok d
  | _ => Raise (Builtin AttributeError)
  end.

(** [v.strip()]: only a str has the attribute. *)
Definition py_strip_attr (v : jval) : result pystr :=
  match v with
  | JStr s => Ok (py_strip s)
  | _ => Raise (Builtin AttributeError)
  end.

(** Truth value of [v] in [if v:] and [if not v:]. *)
Definition py_truthy (v : jval) : bool :=
  match v with
  | JNull => false
  | JBool b => b
  | JInt z => negb (z =? 0)
  | JFloat (S754_zero _) => false
  | JFloat _ => true
  | JStr s => negb (bool_decide (s = []))
  | JArr l => match l with [] => false | _ => true end
  | JObj d => match d with [] => false | _ => true end
  end.

(** [for x in v]: a list yields its items, a dict its keys, a str its
    characters; anything else is not iterable. *)
Definition py_iter (v : jval) : result (list jval) :=
  match v with
  | JArr l => Ok l
  | JObj d => Ok (map (fun kv => JStr (fst kv)) d)
  | JStr s => Ok (map (fun c => JStr [c]) s)
  | _ => Raise (Builtin TypeError)
  end.

(** *** [int(v)] *)

Definition digit_of (c : ascii) : option Z :=
  let n := N_of_ascii c in
  if ((48 <=? n)%N && (n <=? 57)%N)%bool then Some (Z.of_N (n - 48)) else None.

(** Decimal digits with single underscores between digits.  [prev] tells
    whether the previous character was a digit. *)
Fixpoint parse_digits (acc : Z) (prev : bool) (s : pystr) : option Z :=
  match s with
  | [] => if prev then Some acc else None
  | c :: s' =>
      if chr_eqb c "_"%char then
        if prev then parse_digits acc false s' else None
      else
        match digit_of c with
        | Some d => parse_digits (10 * acc + d) true s'
        | None => None
        end
  end.

(** The whitespace [int] skips around the digits.  It is not the set of
    [str.strip]: U+001C..U+001F are kept (and make the conversion fail).
    The characters skipped are U+0009..U+000D and U+0020, and U+0085 and
    U+00A0, which [int] turns into a space before it reads the digits. *)
Definition int_isspace (c : ascii) : bool :=
  let n := N_of_ascii c in
  ((9 <=? n)%N && (n <=? 13)%N) || (n =? 32)%N
  || (n =? 133)%N || (n =? 160)%N.

Definition int_strip (s : pystr) : pystr :=
  rev (drop_while int_isspace (rev (drop_while int_isspace s))).

(** [sys.get_int_max_str_digits()]: the default limit of the interpreter
    on the number of digits of a str converted to an [int]. *)
Definition int_max_str_digits : nat := 4300.

Definition is_digit (c : ascii) : bool :=
  let n := N_of_ascii c in ((48 <=? n)%N && (n <=? 57)%N)%bool.

(** [int(s)] for a str, base 10: surrounding whitespace is ignored, then an
    optional sign, then the digits; more than [int_max_str_digits] digits
    are refused. *)
Definition int_of_pystr (s : pystr) : option Z :=
  let body := int_strip s in
  if (int_max_str_digits <? length (List.filter is_digit body))%nat then None
  else
    match body with
    | c :: r =>
        if chr_eqb c "-"%char then Z.opp <$> parse_digits 0 false r
        else if chr_eqb c "+"%char then parse_digits 0 false r
        else parse_digits 0 false (c :: r)
    | [] => None
    end.

(** [int(x)] for a float: truncation toward zero; infinities and NaN raise. *)
Definition int_of_float (f : spec_float) : result Z :=
  match f with
  | S754_zero _ => Ok 0
  | S754_infinity _ => Raise (Builtin OverflowError)
  | S754_nan => Raise (Builtin ValueError)
  | S754_finite s m e =>
      let mag := if 0 <=? e then Z.pos m * 2 ^ e else Z.pos m / 2 ^ (- e) in
      Ok (if s then - mag else mag)
  end.

Definition py_int (v : jval) : result Z :=
  match v with
  | JNull => Raise (Builtin TypeError)
  | JBool b => Ok (if b then 1 else 0)
  | JInt z => Ok z
  | JFloat f => int_of_float f
  | JStr s =>
      match int_of_pystr s with
      | Some z => Ok z
      | None => Raise (Builtin ValueError)
      end
  | JArr _ | JObj _ => Raise (Builtin TypeError)
  end.

(** *** Dictionary keys

    A key must be hashable; [True], [1] and [1.0] are one key.  A NaN
    equals nothing under [==], but [json.load] returns one and the same
    object for every [NaN] of the input, and a dict finds a key by identity
    before it compares: the NaN read from a file is one key. *)

Definition py_hashable (v : jval) : bool :=
  match v with
  | JArr _ | JObj _ => false
  | _ => true
  end.

(** The integer a float equals exactly, if any. *)
Definition float_as_int (f : spec_float) : option Z :=
  match f with
  | S754_zero _ => Some 0
  | S754_finite s m e =>
      let sg (z : Z) := if s then - z else z in
      if 0 <=? e then Some (sg (Z.pos m * 2 ^ e))
      else if Z.pos m mod 2 ^ (- e) =? 0 then Some (sg (Z.pos m / 2 ^ (- e)))
      else None
  | _ => None
  end.

Definition float_eqb (f g : spec_float) : bool :=
  match f, g with
  | S754_zero _, S754_zero _ => true
  | S754_infinity s, S754_infinity t => Bool.eqb s t
  | S754_finite s m e, S754_finite t n k =>
      Bool.eqb s t
      && (Z.pos m * 2 ^ Z.max 0 (e - k) =? Z.pos n * 2 ^ Z.max 0 (k - e))
  | _, _ => false
  end.

Definition int_float_eqb (z : Z) (f : spec_float) : bool :=
  match float_as_int f with
  | Some z' => z =? z'
  | None => false
  end.

Definition bool_to_Z (b : bool) : Z := if b then 1 else 0.

Definition float_is_nan (f : spec_float) : bool :=
  match f with
  | S754_nan => true
  | _ => false
  end.

(** [a is b or a == b] on hashable values read by [json.load], as a dict
    compares keys. *)
Definition key_eqb (a b : jval) : bool :=
  match a, b with
  | JNull, JNull => true
  | JStr s, JStr t => pystr_eqb s t
  | JBool x, JBool y => Bool.eqb x y
  | JBool x, JInt z | JInt z, JBool x => bool_to_Z x =? z
  | JInt x, JInt y => x =? y
  | JBool x, JFloat f | JFloat f, JBool x => int_float_eqb (bool_to_Z x) f
  | JInt z, JFloat f | JFloat f, JInt z => int_float_eqb z f
  | JFloat f, JFloat g =>
      (float_is_nan f && float_is_nan g) || float_eqb f g
  | _, _ => false
  end.

(** ** Sorting

    [sorted(l, key=..., reverse=...)] evaluates the key of every item first
    (the first failure is raised), and is stable in both directions: items
    with equal keys keep their input order.  The result of a stable sort is
    determined by that, so an insertion sort stands for it; descending order
    is ascending order of the negated keys. *)

Fixpoint insert_keyed {A} (k : Z) (x : A) (l : list (Z * A))
  : list (Z * A) :=
  match l with
  | [] => [(k, x)]
  | (k', y) :: l' =>
      if k <=? k' then (k, x) :: l else (k', y) :: insert_keyed k x l'
  end.

Fixpoint sort_keyed {A} (l : list (Z * A)) : list (Z * A) :=
  match l with
  | [] => []
  | (k, x) :: l' => insert_keyed k x (sort_keyed l')
  end.

Fixpoint keyed {A} (key : A -> result Z) (l : list A)
  : result (list (Z * A)) :=
  match l with
  | [] => Ok []
  | x :: l' =>
      rbind (key x) (fun k =>
      rbind (keyed key l') (fun kl => Ok ((k, x) :: kl)))
  end.

Definition py_sorted {A} (reverse : bool) (key : A -> result Z) (l : list A)
  : result (list A) :=
  rbind (keyed (fun x => rbind (key x)
                   (fun k => Ok (if reverse then - k else k))) l)
        (fun kl => Ok (map snd (sort_keyed kl))).

(** ** Paths and files *)

(** [os.path.join(a, b)] (POSIX). *)
Definition path_join (a b : pystr) : pystr :=
  match b with
  | "/"%char :: _ => b
  | _ =>
      match last a with
      | None => b
      | Some c => if chr_eqb c "/"%char then a ++ b else a ++ str "/" ++ b
      end
  end.

Record file := { f_content : pystr; f_mtime : Z }.

(** The file system: regular files by path.  A directory is there when a
    file lies under it, so [os.makedirs(..., exist_ok=True)] changes
    nothing. *)
Abbreviation fs := (gmap pystr file).

Definition fs_exists (st : fs) (p : pystr) : bool :=
  bool_decide (is_Some (st !! p)).

Record completed_process := {
  returncode : Z;
  proc_stdout : option pystr;
  proc_stderr : option pystr
}.

(** What the code takes from outside the repository. *)
Record host := {
  (* os.environ.get("RASA_PROJECT_PATH") *)
  environ_rasa_project_path : option pystr;
  (* os.path.abspath *)
  abspath : pystr -> pystr;
  (* json.load on the content of a file: the value, or the message of the
     failure *)
  json_load : pystr -> jval + pystr;
  (* yaml.dump(doc, sort_keys=False, allow_unicode=True) *)
  yaml_dump : jval -> pystr;
  (* json.dump(obj, indent=2) *)
  json_dump : jval -> pystr;
  (* str(v) and format(v) of a float, a list or a dict *)
  repr_other : jval -> pystr;
  (* shutil.which("rasa") *)
  which_rasa : option pystr;
  (* sys.executable *)
  sys_executable : pystr;
  (* int(time.time()) at the backup, at the log and in the spaCy trainer *)
  time_backup : Z;
  time_log : Z;
  time_spacy : Z;
  (* the modification time the system stamps on a file written at a path *)
  stamp : pystr -> Z;
  (* subprocess.run(cmd, cwd=..., capture_output=True, text=True) *)
  subprocess_run : list pystr -> pystr -> fs -> completed_process * fs;
  (* import spacy: None when it succeeds, the message of the failure
     otherwise *)
  spacy_import : option pystr;
  (* lines 56-90 of train_spacy_model: the pipeline is built, trained on the
     examples with the labels and written under the directory given; the
     message of the failure when spaCy raises *)
  spacy_fit : list (jval * list (Z * Z * pystr)) -> gset pystr -> pystr ->
              fs -> (unit + pystr) * fs
}.

Open Scope py_scope.

(** ** The converters *)

Section Converters.

Variable h : host.

(** [str(v)], which is also what an f-string puts for [{v}]. *)
Definition py_str (v : jval) : pystr :=
  match v with
  | JStr s => s
  | JNull => str "None"
  | JBool true => str "True"
  | JBool false => str "False"
  | JInt z => int_to_str z
  | _ => repr_other h v
  end.

(** *** annotations -> spaCy (train_spacy_model, lines 34-51) *)

Definition span := (Z * Z * pystr)%type.

(** The body of the [try] of lines 42-47. *)
Definition spacy_entity (e : jval) : result span :=
  d <- py_as_dict e;
  s <- py_int (dict_get_or d (str "start") JNull);
  en <- py_int (dict_get_or d (str "end") JNull);
  Ok (s, en, py_str (dict_get_or d (str "label") JNull)).

(** One turn of the loop of lines 40-49 over [spacy_ents] and [labels]:
    [except Exception: continue] drops the entity. *)
Definition spacy_entity_step (acc : list span * gset pystr) (e : jval)
  : list span * gset pystr :=
  match spacy_entity e with
  | Ok (s, en, lab) => (acc.1 ++ [(s, en, lab)], acc.2 ∪ {[lab]})
  | Raise _ => acc
  end.

Definition training_example := (jval * list span)%type.

(** One turn of the loop of lines 36-51 over [training_data] and
    [labels]. *)
Definition spacy_record_step (acc : list training_example * gset pystr)
  (ann : jval) : result (list training_example * gset pystr) :=
  d <- py_as_dict ann;
  let text := dict_get_or d (str "text") (JStr []) in
  let ents := dict_get_or d (str "entities") (JArr []) in
  es <- py_iter ents;
  let '(spacy_ents, labels) := fold_left spacy_entity_step es ([], acc.2) in
  Ok (if py_truthy text then acc.1 ++ [(text, spacy_ents)] else acc.1,
      labels).

(** Lines 34-51. *)
Definition spacy_convert (annotations : jval)
  : result (list training_example * gset pystr) :=
  anns <- py_iter annotations;
  rfold spacy_record_step ([], ∅) anns.

(** *** annotations -> Rasa (annotations_to_rasa_nlu, lines 112-144) *)

(** The sort key of line 125. *)
Definition rasa_span_key (e : jval) : result Z :=
  d <- py_as_dict e;
  py_int (dict_get_or d (str "start") (JInt 0)).

(** One turn of the loop of lines 128-135 over [marked] and [last]. *)
Definition mark_step (text : pystr) (st : pystr * Z) (sp : jval)
  : result (pystr * Z) :=
  let '(marked, last) := st in
  d <- py_as_dict sp;
  s <- py_int (dict_get_or d (str "start") (JInt 0));
  e <- py_int (dict_get_or d (str "end") (JInt 0));
  let label := dict_get_or d (str "label") (JStr (str "entity")) in
  let marked := marked ++ py_slice text last s in
  let entity_text := replace_nl (py_slice text s e) in
  let marked :=
    marked ++ str "[" ++ entity_text ++ str "](" ++ py_str label ++ str ")" in
  Ok (marked, e).

(** Lines 120-137: the example of a record with stripped text [text]. *)
Definition rasa_example (text : pystr) (entities : jval) : result pystr :=
  if negb (py_truthy entities) then Ok text
  else
    items <- py_iter entities;
    spans_sorted <- py_sorted false rasa_span_key items;
    '(marked, last) <- rfold (mark_step text) ([], 0) spans_sorted;
    Ok (marked ++ py_slice_from text last).

(** Lines 115-137: the intent and the example of a record, or [None] when
    the record is skipped. *)
Definition rasa_record (ann : jval) : result (option (jval * pystr)) :=
  d <- py_as_dict ann;
  text <- py_strip_attr (dict_get_or d (str "text") (JStr []));
  if bool_decide (text = []) then Ok None
  else
    let intent := dict_get_or d (str "intent") (JStr (str "unknown_intent")) in
    let entities := dict_get_or d (str "entities") (JArr []) in
    example <- rasa_example text entities;
    Ok (Some (intent, example)).

(** [intents_map]: the bindings of the dict in insertion order. *)
Definition intents_map := list (jval * list pystr).

Fixpoint intents_lookup (m : intents_map) (k : jval) : option (list pystr) :=
  match m with
  | [] => None
  | (k', exs) :: m' => if key_eqb k' k then Some exs else intents_lookup m' k
  end.

Fixpoint intents_append (m : intents_map) (k : jval) (ex : pystr)
  : intents_map :=
  match m with
  | [] => [(k, [ex])]
  | (k', exs) :: m' =>
      if key_eqb k' k then (k', exs ++ [ex]) :: m'
      else (k', exs) :: intents_append m' k ex
  end.

(** Line 138: [intents_map.setdefault(intent, []).append(example)]. *)
Definition setdefault_append (m : intents_map) (k : jval) (ex : pystr)
  : result intents_map :=
  if py_hashable k then Ok (intents_append m k ex)
  else Raise (Builtin TypeError).

(** One turn of the loop of lines 114-138. *)
Definition rasa_record_step (m : intents_map) (ann : jval)
  : result intents_map :=
  r <- rasa_record ann;
  match r with
  | None => Ok m
  | Some (intent, example) => setdefault_append m intent example
  end.

(** Lines 113-138. *)
Definition rasa_intents (annotations : jval) : result intents_map :=
  anns <- py_iter annotations;
  rfold rasa_record_step [] anns.

(** Line 143. *)
Definition rasa_block (entry : jval * list pystr) : jval :=
  let '(intent, examples) := entry in
  JObj [(str "intent", intent);
        (str "examples",
         JStr (str "|" ++ [NL]
               ++ py_join [NL] (map (fun ex => str "  - " ++ ex) examples)))].

(** Lines 141-144. *)
Definition nlu_section (m : intents_map) : jval :=
  JObj [(str "version", JStr (str "2.0"));
        (str "nlu", JArr (map rasa_block m))].

End Converters.

(** ** The file system and the adapters *)

(** A computation that reads and changes the file system and may raise; the
    file system reached is kept when it raises. *)
Definition io (A : Type) : Type := fs -> result A * fs.

Definition io_ret {A} (a : A) : io A := fun st => (Ok a, st).

Definition io_raise {A} (e : exn) : io A := fun st => (Raise e, st).

Definition io_lift {A} (r : result A) : io A := fun st => (r, st).

Definition io_bind {A B} (c : io A) (k : A -> io B) : io B :=
  fun st =>
    match c st with
    | (Ok a, st') => k a st'
    | (Raise e, st') => (Raise e, st')
    end.

Notation "x <~ c ; k" := (io_bind c (fun x => k))
  (at level 20, c at level 100, k at level 200, only parsing) : py_scope.
Notation "' p <~ c ; k" := (io_bind c (fun p => k))
  (at level 20, p pattern, c at level 100, k at level 200, only parsing)
  : py_scope.

(** The result of a call into a library: the failure of a library is an
    [External] exception. *)
Definition io_external {A} (o : A + pystr) : io A :=
  match o with
  | inl a => io_ret a
  | inr msg => io_raise (External msg)
  end.

(** [try: c except Exception: pass] *)
Definition io_try_pass (c : io unit) : io unit :=
  fun st => (Ok tt, (c st).2).

Definition io_state : io fs := fun st => (Ok st, st).

Fixpoint strip_prefix (pre s : pystr) : option pystr :=
  match pre, s with
  | [], _ => Some s
  | c :: pre', d :: s' => if chr_eqb c d then strip_prefix pre' s' else None
  | _ :: _, [] => None
  end.

Definition ends_with (suffix s : pystr) : bool :=
  match strip_prefix (rev suffix) (rev s) with
  | Some _ => true
  | None => false
  end.

(** A file name matched by the pattern [*<suffix>] of [glob]: a name within
    the directory, not hidden, that ends with the suffix. *)
Definition star_match (suffix name : pystr) : bool :=
  ends_with suffix name
  && negb (bool_decide ("/"%char ∈ name))
  && match name with
     | "."%char :: _ => false
     | _ => true
     end.

(** The path [p] is a file of directory [dir] whose name matches
    [*<suffix>]. *)
Definition glob_match (dir suffix p : pystr) : bool :=
  match strip_prefix (path_join dir []) p with
  | Some name => star_match suffix name
  | None => false
  end.

(** [glob(os.path.join(dir, "*" + suffix))], in the order the file system
    lists the paths. *)
Definition glob_star (st : fs) (dir suffix : pystr) : list pystr :=
  filter (fun p => glob_match dir suffix p = true) (map fst (map_to_list st)).

(** [os.path.isdir(dir)] *)
Definition is_dir (st : fs) (dir : pystr) : bool :=
  existsb (fun p => match strip_prefix (path_join dir []) p with
                    | Some (_ :: _) => true
                    | _ => false
                    end)
          (map fst (map_to_list st)).

(** [os.path.getmtime(p)] *)
Definition getmtime (st : fs) (p : pystr) : result Z :=
  match st !! p with
  | Some f => Ok (f_mtime f)
  | None => Raise (Builtin OSError)
  end.

(** Lines 173-178. *)
Definition find_latest_rasa_model (st : fs) (rasa_project_path : pystr)
  : result (option pystr) :=
  let models_dir := path_join rasa_project_path (str "models") in
  if negb (is_dir st models_dir) then Ok None
  else
    gz <- py_sorted true (getmtime st) (glob_star st models_dir (str ".tar.gz"));
    Ok (head gz).

Section Adapters.

Variable h : host.

(** [open(p, "w")] followed by the writes that make up [content]. *)
Definition write_file (p content : pystr) : io unit :=
  fun st => (Ok tt, <[p := {| f_content := content; f_mtime := stamp h p |}]> st).

(** [shutil.copy2(src, dst)]: content and modification time. *)
Definition copy2 (src dst : pystr) : io unit :=
  fun st =>
    match st !! src with
    | Some f => (Ok tt, <[dst := f]> st)
    | None => (Raise (Builtin OSError), st)
    end.

(** Lines 101-150. *)
Definition annotations_to_rasa_nlu (annotations : jval)
  (rasa_project_path : pystr) : io pystr :=
  let data_dir := path_join rasa_project_path (str "data") in
  intents_map <~ io_lift (rasa_intents h annotations);
  let target := path_join data_dir (str "nlu.yml") in
  _ <~ write_file target (yaml_dump h (nlu_section intents_map));
  io_ret target.

(** Lines 153-170. *)
Definition _which_rasa_executable : list pystr :=
  match which_rasa h with
  | Some (_ :: _) => [str "rasa"]
  | _ => [sys_executable h; str "-m"; str "rasa"]
  end.

(** Lines 192-196. *)
Definition rasa_project_path (base_dir : pystr) : pystr :=
  abspath h
    match environ_rasa_project_path h with
    | Some (c :: p) => c :: p
    | _ => abspath h (path_join (path_join base_dir (str "..")) (str ".."))
    end.

(** Lines 198-199. *)
Definition annotations_file (base_dir : pystr) : pystr :=
  path_join (path_join base_dir (str "data")) (str "annotations.json").

Definition dest_models_dir (base_dir : pystr) : pystr :=
  path_join (path_join base_dir (str "models")) (str "rasa_model").

(** Line 214. *)
Definition nlu_file (base_dir : pystr) : pystr :=
  path_join (path_join (rasa_project_path base_dir) (str "data"))
            (str "nlu.yml").

(** Line 217. *)
Definition backup_file (base_dir : pystr) : pystr :=
  nlu_file base_dir ++ str ".bak_" ++ int_to_str (time_backup h).

(** Lines 198-221: the annotations are loaded and converted, then the
    backup is taken. *)
Definition rasa_prepare (base_dir : pystr) : io unit :=
  st <~ io_state;
  match st !! annotations_file base_dir with
  | None =>
      io_raise (MissingInput (str "annotations.json not found at: "
                              ++ annotations_file base_dir))
  | Some fh =>
      annotations <~ io_external (json_load h (f_content fh));
      nlu_path <~ annotations_to_rasa_nlu annotations
                    (rasa_project_path base_dir);
      io_try_pass (
        st <~ io_state;
        if fs_exists st (nlu_file base_dir)
        then copy2 (nlu_file base_dir) (backup_file base_dir)
        else io_ret tt)
  end.

(** Lines 224-225. *)
Definition rasa_cmd : list pystr :=
  _which_rasa_executable ++ [str "train"; str "nlu"].

(** Line 235. *)
Definition log_file (base_dir : pystr) : pystr :=
  path_join (dest_models_dir base_dir)
            (str "training_log_" ++ int_to_str (time_log h) ++ str ".txt").

(** Lines 237-242. *)
Definition log_content (base_dir stdout stderr : pystr) : pystr :=
  (str "CMD: " ++ py_join (str " ") rasa_cmd ++ [NL; NL])
  ++ (str "CWD: " ++ rasa_project_path base_dir ++ [NL; NL])
  ++ (str "=== STDOUT ===" ++ [NL])
  ++ (stdout ++ [NL; NL])
  ++ (str "=== STDERR ===" ++ [NL])
  ++ (stderr ++ [NL]).

(** Lines 246-253. *)
Definition failure_message (base_dir stdout stderr : pystr) : pystr :=
  str "Rasa training failed. See training log: "
  ++ log_file base_dir
  ++ [NL; NL] ++ str "STDERR:" ++ [NL]
  ++ py_slice_to stderr 4000
  ++ [NL; NL] ++ str "STDOUT:" ++ [NL]
  ++ py_slice_to stdout 4000.

(** Lines 261-262. *)
Definition dest_name : pystr :=
  str "model_v" ++ int_to_str (time_log h) ++ str ".tar.gz".

Definition dest_path (base_dir : pystr) : pystr :=
  path_join (dest_models_dir base_dir) dest_name.

(** Line 274. *)
Definition meta_file (base_dir : pystr) : pystr :=
  path_join (dest_models_dir base_dir) (str "metadata.json").

(** Lines 266-273. *)
Definition rasa_metadata (base_dir latest stdout stderr : pystr) : jval :=
  JObj [(str "info",
         JObj [(str "name", JStr (str "rasa_model"));
               (str "trained_at", JInt (time_log h));
               (str "version", JStr (str "v" ++ int_to_str (time_log h)))]);
        (str "file", JStr dest_name);
        (str "original_model_path", JStr latest);
        (str "training_log", JStr (log_file base_dir));
        (str "rasa_stdout_snippet", JStr (py_slice_to stdout 4000));
        (str "rasa_stderr_snippet", JStr (py_slice_to stderr 4000))].

(** [x or ""] *)
Definition or_empty (o : option pystr) : pystr :=
  match o with
  | Some (c :: s) => c :: s
  | _ => []
  end.

(** Lines 230-278: what follows the return of the subprocess. *)
Definition rasa_finish (base_dir : pystr) (proc : completed_process)
  : io pystr :=
  let stdout := or_empty (proc_stdout proc) in
  let stderr := or_empty (proc_stderr proc) in
  _ <~ write_file (log_file base_dir) (log_content base_dir stdout stderr);
  if negb (returncode proc =? 0) then
    io_raise (SubprocessFailure (failure_message base_dir stdout stderr))
  else
    st <~ io_state;
    latest <~ io_lift (find_latest_rasa_model st (rasa_project_path base_dir));
    match latest with
    | Some (c :: l) =>
        let latest := c :: l in
        _ <~ copy2 latest (dest_path base_dir);
        _ <~ write_file (meta_file base_dir)
               (json_dump h (rasa_metadata base_dir latest stdout stderr));
        io_ret (dest_path base_dir)
    | _ =>
        io_raise (ArtifactNotFound
          (str "Rasa trained but no model file found in rasa_project/models. See log: "
           ++ log_file base_dir))
    end.

(** Line 229. *)
Definition run_rasa (base_dir : pystr) : io completed_process :=
  fun st =>
    let '(proc, st') := subprocess_run h rasa_cmd (rasa_project_path base_dir) st in
    (Ok proc, st').

(** Lines 181-278. *)
Definition train_rasa_model (base_dir : pystr) : io pystr :=
  _ <~ rasa_prepare base_dir;
  proc <~ run_rasa base_dir;
  rasa_finish base_dir proc.

(** *** The spaCy trainer (lines 12-97) *)

Definition spacy_dir (base_dir : pystr) : pystr :=
  path_join (path_join base_dir (str "models")) (str "spacy_model").

Definition model_version_dir (base_dir : pystr) : pystr :=
  path_join (spacy_dir base_dir) (str "model_v" ++ int_to_str (time_spacy h)).

Definition spacy_meta : jval :=
  JObj [(str "name", JStr (str "spacy_ner"));
        (str "version", JStr (str "v" ++ int_to_str (time_spacy h)));
        (str "trained_at", JInt (time_spacy h))].

Definition train_spacy_model (base_dir : pystr) : io pystr :=
  match spacy_import h with
  | Some e =>
      io_raise (DependencyUnavailable
                  (str "spaCy is required for training: " ++ e))
  | None =>
      st <~ io_state;
      match st !! annotations_file base_dir with
      | None => io_raise (MissingInput (str "annotations.json not found"))
      | Some fh =>
          annotations <~ io_external (json_load h (f_content fh));
          '(training_data, labels) <~ io_lift (spacy_convert h annotations);
          match training_data with
          | [] => io_raise EmptyTrainingSet
          | _ :: _ =>
              _ <~ (fun st =>
                      let '(o, st') :=
                        spacy_fit h training_data labels
                                  (model_version_dir base_dir) st in
                      io_external o st');
              _ <~ write_file
                     (path_join (spacy_dir base_dir)
                        (str "meta_v" ++ int_to_str (time_spacy h)
                         ++ str ".json"))
                     (json_dump h spacy_meta);
              io_ret (model_version_dir base_dir)
          end
      end
  end.

End Adapters.

(** ** Re-extraction of the bracketed spans

    The round-trip property of the specification reads the groups
    [[span-text](label)] back from an example.  The reading follows the
    words of the specification, not a function of the source: groups are
    taken leftmost and do not overlap, the span text runs to the first
    closing bracket, which the opening parenthesis must follow at once, and
    the label runs to the first closing parenthesis. *)

(** The text before the first [c], and the text after it. *)
Fixpoint split_at (c : ascii) (s : pystr) : option (pystr * pystr) :=
  match s with
  | [] => None
  | x :: s' =>
      if chr_eqb x c then Some ([], s')
      else
        match split_at c s' with
        | Some (a, b) => Some (x :: a, b)
        | None => None
        end
  end.

(** A group that starts right after an opening bracket: its span text, its
    label and the number of characters it takes after the bracket. *)
Definition group_at (s : pystr) : option (pystr * pystr * nat) :=
  match split_at "]"%char s with
  | Some (t, "("%char :: r) =>
      match split_at ")"%char r with
      | Some (l, _) => Some (t, l, (length t + length l + 3)%nat)
      | None => None
      end
  | _ => None
  end.

(** The groups of [s], the first [skip] characters being part of a group
    already read. *)
Fixpoint extract_from (skip : nat) (s : pystr) : list (pystr * pystr) :=
  match s with
  | [] => []
  | c :: s' =>
      match skip with
      | S k => extract_from k s'
      | O =>
          if chr_eqb c "["%char then
            match group_at s' with
            | Some (t, l, n) => (t, l) :: extract_from n s'
            | None => extract_from 0 s'
            end
          else extract_from 0 s'
      end
  end.

Definition extract_spans (s : pystr) : list (pystr * pystr) :=
  extract_from 0 s.

(** ** Typed records

    The records of the data model: an entity with integer offsets and a
    string label, as the client sends it. *)

Record entity := { e_start : Z; e_end : Z; e_label : pystr }.

Definition entity_json (e : entity) : jval :=
  JObj [(str "start", JInt (e_start e));
        (str "end", JInt (e_end e));
        (str "label", JStr (e_label e))].

(** ** The shape of an example

    What the loop of lines 126-136 builds, written over the spans it reads
    rather than over its two variables. *)

(** The first failure of [f] on the items of [l], or all the results. *)
Fixpoint rmap {A B} (f : A -> result B) (l : list A) : result (list B) :=
  match l with
  | [] => Ok []
  | x :: l' => y <- f x; ys <- rmap f l'; Ok (y :: ys)
  end.

(** Lines 129-131: the offsets and the label of a span, the label as the
    f-string of line 134 prints it. *)
Definition rasa_span (h : host) (sp : jval) : result span :=
  d <- py_as_dict sp;
  s <- py_int (dict_get_or d (str "start") (JInt 0));
  e <- py_int (dict_get_or d (str "end") (JInt 0));
  Ok (s, e, py_str h (dict_get_or d (str "label") (JStr (str "entity")))).

(** The text from offset [last] on, with the spans marked: between two
    spans the text is a slice of [text]; in a span the slice has its
    newlines replaced. *)
Fixpoint markup_from (text : pystr) (last : Z) (spans : list span) : pystr :=
  match spans with
  | [] => py_slice_from text last
  | (s, e, l) :: rest =>
      py_slice text last s
      ++ str "[" ++ replace_nl (py_slice text s e) ++ str "](" ++ l ++ str ")"
      ++ markup_from text e rest
  end.

Definition entity_span (e : entity) : span := (e_start e, e_end e, e_label e).

(** Spans in order and apart: each starts where the one before has ended,
    or later, and all lie within [0..n]. *)
Fixpoint spans_in_order (n last : Z) (ents : list entity) : Prop :=
  match ents with
  | [] => True
  | e :: rest =>
      last <= e_start e /\ e_start e <= e_end e /\ e_end e <= n
      /\ spans_in_order n (e_end e) rest
  end.

(** The span the spaCy conversion keeps for an entity, if any: the entity
    is a dict and [int] accepts its start and its end. *)
Definition span_of (h : host) (e : jval) : option span :=
  match e with
  | JObj d =>
      match py_int (dict_get_or d (str "start") JNull),
            py_int (dict_get_or d (str "end") JNull) with
      | Ok s, Ok en =>
          Some (s, en, py_str h (dict_get_or d (str "label") JNull))
      | _, _ => None
      end
  | _ => None
  end.

(** Ascending order of the sort keys. *)
Definition key_le {A} (a b : Z * A) : Prop := a.1 <= b.1.

(** The round trip of the specification on a record with text [raw] and
    entities [ents]: the record has an example, and the groups read back
    from it are the substrings [raw[start:end]] with their labels. *)
Definition roundtrip_holds (h : host) (raw : pystr) (ents : list entity)
  : Prop :=
  exists intent example,
    rasa_record h (JObj [(str "text", JStr raw);
                         (str "entities", JArr (map entity_json ents))])
    = Ok (Some (intent, example))
    /\ extract_spans example
       = map (fun e => (py_slice raw (e_start e) (e_end e), e_label e)) ents.

(** The file that line 148 writes. *)
Definition converted_nlu (h : host) (base_dir : pystr) (m : intents_map)
  : file :=
  {| f_content := yaml_dump h (nlu_section m);
     f_mtime := stamp h (nlu_file h base_dir) |}.

(** The file that lines 236-242 write. *)
Definition training_log (h : host) (base_dir : pystr)
  (proc : completed_process) : file :=
  {| f_content := log_content h base_dir (or_empty (proc_stdout proc))
                              (or_empty (proc_stderr proc));
     f_mtime := stamp h (log_file h base_dir) |}.

(** ** Sample inputs *)

Definition sample_entity (s e : Z) (l : string) : jval :=
  entity_json {| e_start := s; e_end := e; e_label := str l |}.

(** The record of the specification. *)
Definition sample_record : jval :=
  JObj [(str "text", JStr (str "book a flight to paris"));
        (str "intent", JStr (str "book_flight"));
        (str "entities", JArr [sample_entity 17 22 "city"])].

(** A stand-in for [yaml.dump] in the sample runs: the intents and their
    examples, one after the other. *)
Definition sample_yaml_dump (doc : jval) : pystr :=
  match doc with
  | JObj [(_, JStr v); (_, JArr blocks)] =>
      str "version: " ++ v ++ [NL]
      ++ concat (map (fun b =>
           match b with
           | JObj [(_, JStr i); (_, JStr ex)] =>
               str "- intent: " ++ i ++ [NL] ++ str "  examples: " ++ ex ++ [NL]
           | _ => []
           end) blocks)
  | _ => []
  end.

(** A host for the sample runs: the project is at [/srv/bot], the
    annotation store holds [anns], and the trainer ends as [proc] after
    leaving the files [produced]. *)
Definition sample_host (anns : jval) (proc : completed_process)
  (produced : list (pystr * file)) : host := {|
  environ_rasa_project_path := Some (str "/srv/bot");
  abspath := fun p => p;
  json_load := fun _ => inl anns;
  yaml_dump := sample_yaml_dump;
  json_dump := fun _ => str "{}";
  repr_other := fun _ => str "?";
  which_rasa := Some (str "/usr/bin/rasa");
  sys_executable := str "/usr/bin/python3";
  time_backup := 1700000000;
  time_log := 1700000060;
  time_spacy := 1700000000;
  stamp := fun _ => 1700000000;
  subprocess_run := fun _ _ st =>
    (proc, foldr (fun pf st => <[pf.1 := pf.2]> st) st produced);
  spacy_import := None;
  spacy_fit := fun _ _ dir st =>
    (inl tt, <[path_join dir (str "meta.json") :=
                 {| f_content := str "{}"; f_mtime := 1700000000 |}]> st)
|}.

(** A host for the properties that take nothing from outside. *)
Definition plain_host : host :=
  sample_host (JArr []) {| returncode := 0; proc_stdout := None;
                           proc_stderr := None |} [].

Definition sample_base : pystr := str "/app/backend".

(** A file system with the annotation store and an earlier [nlu.yml]. *)
Definition sample_fs : fs :=
  <[str "/srv/bot/data/nlu.yml" :=
      {| f_content := str "version: 2.0 (earlier data)"; f_mtime := 5 |}]>
  (<[str "/app/backend/data/annotations.json" :=
      {| f_content := str "[...]"; f_mtime := 7 |}]> ∅).

(** The archives a successful training leaves in the project. *)
Definition sample_archives : list (pystr * file) :=
  [(str "/srv/bot/models/nlu-1.tar.gz",
    {| f_content := str "archive one"; f_mtime := 10 |});
   (str "/srv/bot/models/nlu-2.tar.gz",
    {| f_content := str "archive two"; f_mtime := 20 |})].

Definition sample_proc (rc : Z) : completed_process :=
  {| returncode := rc;
     proc_stdout := Some (str "training NLU model");
     proc_stderr := None |}.

(** ** The routes of app.py

    A route takes the parsed body of the request and answers with a
    response; an exception it does not catch is raised to the framework.
    A response stands for the body and the status code the route returns:
    the [details] of a failed training is [str(e)] of the exception held. *)

      (* {'error': 'unknown_backend'}, 400 *)






Section Routes.

Variable h : host.

(** [json.dump(data, ensure_ascii=False, indent=2)], the form in which the
    annotation store is saved. *)
Variable json_dump_store : jval -> pystr.

(** [BASE_DIR] *)
Variable base_dir : pystr.










End Routes.

(** ** The conversions as functions of the store

    What the two conversion loops compute, written record by record. *)








(** ** Records whose markup can be read back *)

(** [text[a:b]] for [0 <= a <= b <= len(text)], where no bound is
    clipped. *)
Definition text_between (text : pystr) (a b : Z) : pystr :=
  take (Z.to_nat b - Z.to_nat a) (drop (Z.to_nat a) text).

(** The characters that the markup reserves do not occur where reading the
    example back would take them for markup: no opening bracket in the
    text outside the spans, no closing bracket and no newline in the text
    of a span, no closing parenthesis in a label. *)
Fixpoint markup_readable (text : pystr) (last : Z) (ents : list entity)
  : Prop :=
  match ents with
  | [] => "["%char ∉ drop (Z.to_nat last) text
  | e :: rest =>
      ("["%char ∉ text_between text last (e_start e))
      /\ ("]"%char ∉ text_between text (e_start e) (e_end e))
      /\ (NL ∉ text_between text (e_start e) (e_end e))
      /\ (")"%char ∉ e_label e)
      /\ markup_readable text (e_end e) rest
  end.

(** ** A host that shows what is dumped *)

Definition render_scalar (v : jval) : pystr :=
  match v with
  | JStr s => s
  | JInt z => int_to_str z
  | _ => str "?"
  end.

Definition render_fields (d : list (pystr * jval)) : pystr :=
  concat (map (fun kv : pystr * jval =>
                 kv.1 ++ str "=" ++ render_scalar kv.2 ++ str ";") d).

(** A stand-in for [json.dump] in the sample runs: the fields of an
    object, two levels deep. *)
Definition sample_json_dump (v : jval) : pystr :=
  match v with
  | JObj d =>
      concat (map (fun kv : pystr * jval =>
                     kv.1 ++ str "="
                     ++ match kv.2 with
                        | JObj inner => str "{" ++ render_fields inner ++ str "}"
                        | x => render_scalar x
                        end ++ str ";") d)
  | _ => str "?"
  end.

(** [sample_host] with the metadata shown. *)
Definition report_host (anns : jval) (proc : completed_process)
  (produced : list (pystr * file)) : host := {|
  environ_rasa_project_path := Some (str "/srv/bot");
  abspath := fun p => p;
  json_load := fun _ => inl anns;
  yaml_dump := sample_yaml_dump;
  json_dump := sample_json_dump;
  repr_other := fun _ => str "?";
  which_rasa := Some (str "/usr/bin/rasa");
  sys_executable := str "/usr/bin/python3";
  time_backup := 1700000000;
  time_log := 1700000060;
  time_spacy := 1700000000;
  stamp := fun _ => 1700000000;
  subprocess_run := fun _ _ st =>
    (proc, foldr (fun pf st => <[pf.1 := pf.2]> st) st produced);
  spacy_import := None;
  spacy_fit := fun _ _ _ st => (inl tt, st)
|}.

(** A subprocess that prints on both streams. *)
Definition noisy_proc (rc : Z) : completed_process :=
  {| returncode := rc;
     proc_stdout := Some (str "training NLU model");
     proc_stderr := Some (str "warning: no pipeline") |}.

(** ** Basic facts *)

(** *** Sanity checks of the builtins *)

Example py_int_padded : py_int (JStr (str " -1_0 ")) = Ok (-10).
Proof. reflexivity. Qed.

Example py_int_word : py_int (JStr (str "abc")) = Raise (Builtin ValueError).
Proof. reflexivity. Qed.

(** [int] does not skip the separators U+001C..U+001F, which [str.strip]
    removes. *)
Example py_int_separator :
  py_int (JStr (ascii_of_nat 31 :: str "1")) = Raise (Builtin ValueError)
  /\ py_strip (ascii_of_nat 31 :: str "1") = str "1"
  /\ py_int (JStr (str "5" ++ [ascii_of_nat 29])) = Raise (Builtin ValueError)
  /\ py_int (JStr (ascii_of_nat 160 :: str "7" ++ [ascii_of_nat 11])) = Ok 7.
Proof. repeat split; reflexivity. Qed.

Example py_int_digit_limit :
  py_int (JStr (repeat "1"%char 4301)) = Raise (Builtin ValueError)
  /\ py_int (JStr (str "-" ++ repeat "0"%char 4299 ++ str "7")) = Ok (-7).
Proof. split; vm_compute; reflexivity. Qed.

Example py_slice_negative : py_slice (str "hello") (-3) 4 = str "ll".
Proof. reflexivity. Qed.

Example extract_two :
  extract_spans (str "book [2](qty) tickets to [paris](city)")
  = [(str "2", str "qty"); (str "paris", str "city")].
Proof. reflexivity. Qed.

Example extract_unclosed :
  extract_spans (str "a [b] (c) [d](e") = [].
Proof. reflexivity. Qed.

Lemma chr_eqb_eq (a b : ascii) : chr_eqb a b = true <-> a = b.
Proof. apply Ascii.eqb_eq. Qed.

Lemma chr_eqb_neq (a b : ascii) : chr_eqb a b = false <-> a <> b.
Proof. apply Ascii.eqb_neq. Qed.

Lemma pair_eta_fst {A B} (x : A * B) (a : A) : x.1 = a -> x = (a, x.2).
Proof. destruct x as [a' b]. cbn. intros ->. reflexivity. Qed.

Lemma rbind_Ok {A B} (r : result A) (k : A -> result B) (b : B) :
  rbind r k = Ok b -> exists a, r = Ok a /\ k a = Ok b.
Proof. destruct r as [a|e]; simpl; [eauto | discriminate]. Qed.

Lemma length_replace_nl (s : pystr) : length (replace_nl s) = length s.
Proof. apply length_map. Qed.

Lemma replace_nl_lookup (s : pystr) (i : nat) :
  replace_nl s !! i = (fun c => if chr_eqb c NL then SP else c) <$> s !! i.
Proof. apply list_lookup_fmap. Qed.

Lemma replace_nl_no_newline (s : pystr) : NL ∉ replace_nl s.
Proof.
  induction s as [|c s IH]; simpl.
  - apply not_elem_of_nil.
  - rewrite not_elem_of_cons. split; [| exact IH].
    destruct (chr_eqb c NL) eqn:E.
    + discriminate.
    + apply chr_eqb_neq in E. congruence.
Qed.

Lemma replace_nl_id (s : pystr) : NL ∉ s -> replace_nl s = s.
Proof.
  induction s as [|c s IH]; simpl; [reflexivity |].
  rewrite not_elem_of_cons. intros [Hc Hs].
  rewrite (IH Hs).
  destruct (chr_eqb c NL) eqn:E; [| reflexivity].
  apply chr_eqb_eq in E. congruence.
Qed.

Lemma replace_nl_changes (s : pystr) : NL ∈ s -> replace_nl s <> s.
Proof.
  intros Hin Heq. apply (replace_nl_no_newline s). rewrite Heq. exact Hin.
Qed.

Lemma py_slice_elem {A} (l : list A) (a b : Z) (x : A) :
  x ∈ py_slice l a b -> x ∈ l.
Proof.
  unfold py_slice. intros Hx.
  apply elem_of_take in Hx as (i & Hi & _).
  rewrite lookup_drop in Hi. eapply list_elem_of_lookup_2, Hi.
Qed.

Lemma py_slice_from_elem {A} (l : list A) (a : Z) (x : A) :
  x ∈ py_slice_from l a -> x ∈ l.
Proof.
  unfold py_slice_from. intros Hx.
  apply list_elem_of_lookup in Hx as (i & Hi).
  rewrite lookup_drop in Hi. eapply list_elem_of_lookup_2, Hi.
Qed.

(** ** The shape of the Rasa markup *)

#[local] Arguments str : simpl never.
#[local] Opaque str.

Section Markup.

Variable h : host.

Lemma mark_step_span (text marked : pystr) (last : Z) (sp : jval) :
  mark_step h text (marked, last) sp
  = rbind (rasa_span h sp) (fun '(s, e, l) =>
      Ok (marked ++ py_slice text last s
                 ++ str "[" ++ replace_nl (py_slice text s e)
                 ++ str "](" ++ l ++ str ")", e)).
Proof.
  unfold mark_step, rasa_span.
  destruct (py_as_dict sp) as [d|x]; cbn [rbind]; [| reflexivity].
  destruct (py_int (dict_get_or d (str "start") (JInt 0))); cbn [rbind];
    [| reflexivity].
  destruct (py_int (dict_get_or d (str "end") (JInt 0))); cbn [rbind];
    [| reflexivity].
  rewrite <- !app_assoc. reflexivity.
Qed.

(** The loop of lines 128-135 followed by line 136. *)
Lemma mark_loop (text : pystr) (sps : list jval) :
  forall (marked : pystr) (last : Z),
    rbind (rfold (mark_step h text) (marked, last) sps)
          (fun '(m, l) => Ok (m ++ py_slice_from text l))
    = rbind (rmap (rasa_span h) sps)
            (fun spans => Ok (marked ++ markup_from text last spans)).
Proof.
  induction sps as [|sp sps IH]; intros marked last; cbn [rfold rmap rbind].
  - reflexivity.
  - rewrite mark_step_span.
    destruct (rasa_span h sp) as [[[s e] l]|x]; cbn [rbind]; [| reflexivity].
    rewrite IH.
    destruct (rmap (rasa_span h) sps) as [spans|x]; cbn [rbind markup_from];
      [| reflexivity].
    rewrite <- !app_assoc. reflexivity.
Qed.

Lemma rasa_example_shape (text : pystr) (entities : jval) :
  rasa_example h text entities
  = if negb (py_truthy entities) then Ok text
    else
      items <- py_iter entities;
      spans_sorted <- py_sorted false rasa_span_key items;
      spans <- rmap (rasa_span h) spans_sorted;
      Ok (markup_from text 0 spans).
Proof.
  unfold rasa_example.
  destruct (negb (py_truthy entities)); [reflexivity |].
  destruct (py_iter entities) as [items|x]; cbn [rbind]; [| reflexivity].
  destruct (py_sorted false rasa_span_key items) as [sorted|x]; cbn [rbind];
    [| reflexivity].
  exact (mark_loop text sorted [] 0).
Qed.

End Markup.

(** ** Sorting *)

Section Sorting.

Context {A : Type}.

Lemma key_le_trans : Transitive (@key_le A).
Proof. unfold key_le. intros a b c ? ?. lia. Qed.

#[local] Existing Instance key_le_trans.

Lemma insert_keyed_perm (k : Z) (x : A) (l : list (Z * A)) :
  insert_keyed k x l ≡ₚ (k, x) :: l.
Proof.
  induction l as [|[k' y] l IH]; simpl; [reflexivity |].
  destruct (k <=? k'); [reflexivity |].
  rewrite IH. apply Permutation_swap.
Qed.

Lemma sort_keyed_perm (l : list (Z * A)) : sort_keyed l ≡ₚ l.
Proof.
  induction l as [|[k x] l IH]; simpl; [reflexivity |].
  rewrite insert_keyed_perm, IH. reflexivity.
Qed.

Lemma insert_keyed_sorted (k : Z) (x : A) (l : list (Z * A)) :
  StronglySorted key_le l -> StronglySorted key_le (insert_keyed k x l).
Proof.
  induction l as [|[k' y] l IH]; simpl; intros Hs.
  - repeat constructor.
  - apply StronglySorted_inv in Hs as [Hl Hall].
    destruct (k <=? k') eqn:E.
    + apply Z.leb_le in E. constructor.
      * constructor; assumption.
      * constructor; [exact E |].
        eapply Forall_impl; [exact Hall |].
        intros z Hz. unfold key_le in *. simpl in *. lia.
    + apply Z.leb_gt in E. constructor.
      * apply IH, Hl.
      * rewrite insert_keyed_perm. constructor; [| exact Hall].
        unfold key_le. simpl. lia.
Qed.

Lemma sort_keyed_sorted (l : list (Z * A)) :
  StronglySorted key_le (sort_keyed l).
Proof.
  induction l as [|[k x] l IH]; simpl.
  - constructor.
  - apply insert_keyed_sorted, IH.
Qed.

(** A list already in ascending order of keys is left as it is. *)
Lemma sort_keyed_id (l : list (Z * A)) :
  StronglySorted key_le l -> sort_keyed l = l.
Proof.
  induction l as [|[k x] l IH]; simpl; intros Hs; [reflexivity |].
  apply StronglySorted_inv in Hs as [Hl Hall].
  rewrite (IH Hl).
  destruct l as [|[k' y] l']; simpl; [reflexivity |].
  apply Forall_cons in Hall as [Hk _]. unfold key_le in Hk. simpl in Hk.
  apply Z.leb_le in Hk. rewrite Hk. reflexivity.
Qed.

Lemma keyed_fst_inj (l : list (Z * A)) (a b : Z * A) :
  NoDup (map fst l) -> a ∈ l -> b ∈ l -> a.1 = b.1 -> a = b.
Proof.
  induction l as [|c l IH]; simpl; intros Hnd Ha Hb Hk.
  - apply elem_of_nil in Ha. contradiction.
  - apply NoDup_cons in Hnd as [Hc Hnd].
    apply elem_of_cons in Ha as [-> | Ha];
      apply elem_of_cons in Hb as [-> | Hb].
    + reflexivity.
    + exfalso. apply Hc. rewrite Hk. apply list_elem_of_fmap. eauto.
    + exfalso. apply Hc. rewrite <- Hk. apply list_elem_of_fmap. eauto.
    + apply IH; assumption.
Qed.

(** With distinct keys the sorted list does not depend on the input
    order. *)
Lemma sort_keyed_perm_eq (l1 l2 : list (Z * A)) :
  l1 ≡ₚ l2 -> NoDup (map fst l1) -> sort_keyed l1 = sort_keyed l2.
Proof.
  intros Hp Hnd.
  apply (StronglySorted_unique_strong key_le);
    [| apply sort_keyed_sorted | apply sort_keyed_sorted
     | rewrite !sort_keyed_perm; exact Hp].
  intros a b Ha Hb Hab Hba.
  rewrite sort_keyed_perm in Ha. rewrite sort_keyed_perm, <- Hp in Hb.
  apply (keyed_fst_inj l1); [assumption .. |].
  unfold key_le in *. lia.
Qed.

Lemma keyed_perm (key : A -> result Z) (l1 l2 : list A) :
  l1 ≡ₚ l2 ->
  forall kl1, keyed key l1 = Ok kl1 ->
  exists kl2, keyed key l2 = Ok kl2 /\ kl1 ≡ₚ kl2.
Proof.
  induction 1 as [| x l1 l2 Hp IH | x y l | l1 l2 l3 H12 IH12 H23 IH23];
    intros kl1 Hk; simpl in *.
  - exists []. injection Hk as <-. split; reflexivity.
  - apply rbind_Ok in Hk as (k & Hkx & Hk).
    apply rbind_Ok in Hk as (kl & Hkl & Hk). injection Hk as <-.
    destruct (IH kl Hkl) as (kl2 & Hkl2 & Hperm).
    exists ((k, x) :: kl2). rewrite Hkx, Hkl2. simpl.
    split; [reflexivity | rewrite Hperm; reflexivity].
  - apply rbind_Ok in Hk as (ky & Hky & Hk).
    apply rbind_Ok in Hk as (kl' & Hkl' & Hk). injection Hk as <-.
    apply rbind_Ok in Hkl' as (kx & Hkx & Hk).
    apply rbind_Ok in Hk as (kl & Hkl & Hk). injection Hk as <-.
    exists ((kx, x) :: (ky, y) :: kl). rewrite Hkx, Hky, Hkl. simpl.
    split; [reflexivity | apply Permutation_swap].
  - destruct (IH12 kl1 Hk) as (kl2 & Hkl2 & Hp12).
    destruct (IH23 kl2 Hkl2) as (kl3 & Hkl3 & Hp23).
    exists kl3. split; [exact Hkl3 | etransitivity; eassumption].
Qed.

Lemma keyed_Ok (key : A -> result Z) (l : list A) (kl : list (Z * A)) :
  keyed key l = Ok kl ->
  map snd kl = l /\ Forall (fun kx => key kx.2 = Ok kx.1) kl.
Proof.
  revert kl. induction l as [|x l IH]; intros kl Hk; simpl in Hk.
  - injection Hk as <-. split; [reflexivity | constructor].
  - apply rbind_Ok in Hk as (k & Hkx & Hk).
    apply rbind_Ok in Hk as (kl' & Hkl & Hk). injection Hk as <-.
    destruct (IH kl' Hkl) as [Hm Hf].
    split; [simpl; rewrite Hm; reflexivity | constructor; assumption].
Qed.

End Sorting.

(** ** The Rasa converter: order of the entities and newlines *)

Lemma keyed_Forall2 {A} (key : A -> result Z) (l : list A) (ks : list Z) :
  Forall2 (fun x k => key x = Ok k) l ks ->
  exists kl, keyed key l = Ok kl /\ map fst kl = ks.
Proof.
  induction 1 as [|x k l ks Hx Hl (kl & Hkl & Hks)]; simpl.
  - exists []. split; reflexivity.
  - exists ((k, x) :: kl). rewrite Hx, Hkl. simpl. rewrite Hks.
    split; reflexivity.
Qed.

Lemma py_sorted_perm {A} (key : A -> result Z) (l1 l2 : list A)
  (ks : list Z) :
  l1 ≡ₚ l2 -> Forall2 (fun x k => key x = Ok k) l1 ks -> NoDup ks ->
  py_sorted false key l1 = py_sorted false key l2.
Proof.
  intros Hp Hk Hnd. unfold py_sorted.
  destruct (keyed_Forall2 (fun x => rbind (key x) (fun k => Ok k)) l1 ks)
    as (kl1 & Hkl1 & Hks).
  { eapply Forall2_impl; [exact Hk |]. intros x k ->. reflexivity. }
  destruct (keyed_perm _ l1 l2 Hp kl1 Hkl1) as (kl2 & Hkl2 & Hperm).
  rewrite Hkl1, Hkl2. simpl.
  rewrite (sort_keyed_perm_eq kl1 kl2 Hperm); [reflexivity |].
  rewrite Hks. exact Hnd.
Qed.

(** The sort is stable: the items with a given key are in the sorted list
    in the order they have in the input. *)
Lemma insert_keyed_filter {A} (j k : Z) (x : A) (l : list (Z * A)) :
  filter (fun kx : Z * A => kx.1 = j) (insert_keyed k x l)
  = filter (fun kx : Z * A => kx.1 = j) ((k, x) :: l).
Proof.
  induction l as [|[k' y] l IH]; cbn [insert_keyed]; [reflexivity |].
  destruct (k <=? k') eqn:E; [reflexivity |].
  apply Z.leb_gt in E.
  rewrite (filter_cons _ (k', y)), IH, !filter_cons. cbn [fst].
  repeat case_decide; try reflexivity; lia.
Qed.

Lemma sort_keyed_filter {A} (j : Z) (l : list (Z * A)) :
  filter (fun kx : Z * A => kx.1 = j) (sort_keyed l)
  = filter (fun kx : Z * A => kx.1 = j) l.
Proof.
  induction l as [|[k x] l IH]; cbn [sort_keyed]; [reflexivity |].
  rewrite insert_keyed_filter, !filter_cons, IH. reflexivity.
Qed.

(** [sorted(l, key=key)] when [key] raises on no item: the items paired
    with their keys, in ascending order of the keys, items with equal keys
    in their input order. *)
Lemma py_sorted_stable {A} (key : A -> result Z) (l : list A) (ks : list Z) :
  Forall2 (fun x k => key x = Ok k) l ks ->
  exists sorted : list (Z * A),
    py_sorted false key l = Ok sorted.*2
    /\ sorted ≡ₚ zip ks l
    /\ StronglySorted key_le sorted
    /\ forall j : Z,
         filter (fun kx : Z * A => kx.1 = j) sorted
         = filter (fun kx : Z * A => kx.1 = j) (zip ks l).
Proof.
  intros Hk. unfold py_sorted.
  destruct (keyed_Forall2 (fun x => rbind (key x) (fun k => Ok k)) l ks)
    as (kl & Hkl & Hks).
  { eapply Forall2_impl; [exact Hk |]. intros x k ->. reflexivity. }
  rewrite Hkl. cbn [rbind].
  destruct (keyed_Ok _ _ _ Hkl) as [Hsnd _].
  assert (kl = zip ks l) as Hzip.
  { rewrite <- Hks, <- Hsnd. symmetry. apply zip_fst_snd. }
  exists (sort_keyed kl). split; [reflexivity |].
  rewrite <- Hzip. split; [apply sort_keyed_perm |].
  split; [apply sort_keyed_sorted |].
  intros j. apply sort_keyed_filter.
Qed.

Lemma py_slice_from_zero {A} (l : list A) : py_slice_from l 0 = l.
Proof.
  unfold py_slice_from, clamp_index. cbn [Z.ltb Z.compare].
  rewrite Z.min_l by lia. reflexivity.
Qed.

(** Permuting the entities leaves the example as it is when the starts
    are pairwise distinct. *)
Lemma rasa_example_perm (h : host) (text : pystr) (es1 es2 : list jval)
  (starts : list Z) :
  es1 ≡ₚ es2 ->
  Forall2 (fun e k => rasa_span_key e = Ok k) es1 starts ->
  NoDup starts ->
  rasa_example h text (JArr es1) = rasa_example h text (JArr es2).
Proof.
  intros Hp Hk Hnd. unfold rasa_example.
  assert (py_truthy (JArr es1) = py_truthy (JArr es2)) as ->.
  { destruct es1, es2; try reflexivity.
    - apply Permutation_nil_cons in Hp. contradiction.
    - symmetry in Hp. apply Permutation_nil_cons in Hp. contradiction. }
  destruct (negb (py_truthy (JArr es2))); [reflexivity |].
  cbn [py_iter rbind].
  rewrite (py_sorted_perm rasa_span_key es1 es2 starts Hp Hk Hnd).
  reflexivity.
Qed.

(** C8, as amended.  For the entities [es] of a record, with the starts
    [starts] that [int] reads in them, there is a list [sorted] of the
    entities paired with their starts such that: [sorted] is a rearrangement
    of the input; it is in ascending order of start; the entities with one
    and the same start are in it in their input order; and the example is
    the markup of the spans of [sorted], taken in that order.  Hence a
    permutation of the entities gives the same example when the starts are
    pairwise distinct. *)
Theorem rasa_example_order_independent (h : host) (text : pystr)
  (es : list jval) (starts : list Z) :
  Forall2 (fun e k => rasa_span_key e = Ok k) es starts ->
  exists sorted : list (Z * jval),
    sorted ≡ₚ zip starts es
    /\ StronglySorted key_le sorted
    /\ (forall k : Z,
          filter (fun kx : Z * jval => kx.1 = k) sorted
          = filter (fun kx : Z * jval => kx.1 = k) (zip starts es))
    /\ rasa_example h text (JArr es)
       = (spans <- rmap (rasa_span h) sorted.*2;
          Ok (markup_from text 0 spans))
    /\ (forall es2 : list jval,
          es ≡ₚ es2 -> NoDup starts ->
          rasa_example h text (JArr es2) = rasa_example h text (JArr es)).
Proof.
  intros Hk.
  destruct (py_sorted_stable rasa_span_key es starts Hk)
    as (sorted & Hsorted & Hperm & Hasc & Hstable).
  exists sorted. split; [exact Hperm |]. split; [exact Hasc |].
  split; [exact Hstable |]. split.
  - rewrite rasa_example_shape. cbn [py_iter rbind]. rewrite Hsorted.
    cbn [rbind]. destruct es as [|e es]; [| reflexivity].
    apply Forall2_nil_inv_l in Hk. subst starts.
    apply Permutation_nil_r in Hperm. subst sorted.
    cbn. rewrite py_slice_from_zero. reflexivity.
  - intros es2 Hp Hnd. symmetry.
    exact (rasa_example_perm h text es es2 starts Hp Hk Hnd).
Qed.

(** The specification's two entities in reverse input order, and two
    entities with the same start. *)
Lemma rasa_example_order_independent_witness :
  let text := str "book 2 tickets to paris" in
  let es := [sample_entity 18 23 "city"; sample_entity 5 6 "qty"] in
  (exists sorted : list (Z * jval),
     sorted = [(5, sample_entity 5 6 "qty"); (18, sample_entity 18 23 "city")]
     /\ rasa_example plain_host text (JArr es)
        = (spans <- rmap (rasa_span plain_host) sorted.*2;
           Ok (markup_from text 0 spans)))
  /\ rasa_example plain_host text (JArr es)
     = Ok (str "book [2](qty) tickets to [paris](city)")
  /\ rasa_example plain_host text
       (JArr [sample_entity 5 6 "qty"; sample_entity 18 23 "city"])
     = rasa_example plain_host text (JArr es).
Proof.
  intros text es.
  destruct (rasa_example_order_independent plain_host text es [18; 5])
    as (sorted & Hperm & Hasc & Hstable & Hex & Hinv).
  { repeat constructor. }
  split; [| split].
  - exists sorted. split; [| exact Hex].
    apply (StronglySorted_unique_strong key_le);
      [| exact Hasc | | rewrite Hperm; apply Permutation_swap].
    + intros a b Ha Hb Hab Hba.
      rewrite Hperm in Ha. unfold key_le in Hab, Hba.
      assert (a.1 = b.1) as Hkey by lia.
      assert (b ∈ zip [18; 5] es) as Hb'.
      { eapply elem_of_Permutation_proper; [apply Permutation_swap | exact Hb]. }
      apply (keyed_fst_inj (zip [18; 5] es));
        [| exact Ha | exact Hb' | exact Hkey].
      apply (bool_decide_unpack _). vm_compute. exact I.
    + repeat constructor; unfold key_le; cbn; lia.
  - vm_compute. reflexivity.
  - apply Hinv; [apply Permutation_swap |].
    apply (bool_decide_unpack _). vm_compute. exact I.
Defined.

(** C8, as stated, fails: two entities with the same start are emitted in
    their input order, so swapping them changes the example. *)
Lemma rasa_example_order_dependent :
  let es1 := [sample_entity 0 0 "x"; sample_entity 0 1 "y"] in
  let es2 := [sample_entity 0 1 "y"; sample_entity 0 0 "x"] in
  es1 ≡ₚ es2
  /\ rasa_example plain_host (str "abc") (JArr es1) = Ok (str "[](x)[a](y)bc")
  /\ rasa_example plain_host (str "abc") (JArr es2) = Ok (str "[a](y)[](x)abc")
  /\ rasa_example plain_host (str "abc") (JArr es1)
     <> rasa_example plain_host (str "abc") (JArr es2).
Proof.
  split; [apply Permutation_swap |].
  split; [vm_compute; reflexivity |].
  split; [vm_compute; reflexivity |].
  vm_compute. discriminate.
Qed.

(** ** Newlines in the Rasa markup *)

Lemma clamp_index_nonneg (n i : Z) : 0 <= n -> 0 <= clamp_index n i.
Proof. unfold clamp_index. intros Hn. destruct (Z.ltb_spec i 0); lia. Qed.

(** A slice, written with [take] and [drop]. *)
Lemma py_slice_take_drop {A} (l : list A) (a b : Z) :
  let n := Z.of_nat (length l) in
  let pos (i : Z) : nat :=
    Z.to_nat (if i <? 0 then Z.max (i + n) 0 else Z.min i n) in
  py_slice l a b = take (pos b - pos a) (drop (pos a) l).
Proof.
  intros n pos. unfold py_slice. fold n.
  rewrite Z2Nat.inj_sub by (apply clamp_index_nonneg; lia).
  reflexivity.
Qed.

(** C10, as amended.  The example of a record with entities is the text
    with every span, in ascending order of start, replaced by
    [[span-text](label)].  Written with the positions [pos] that Python's
    slicing gives to the offsets: the text before a span, from where the
    span before it ended, is the part of [text] between the two positions,
    unchanged, and so is the text after the last span; the span text is
    the part of [text] between the positions of its start and its end with
    every newline replaced by a space, character by character.  What is put
    between the brackets holds no newline, so it differs from the span text
    when the span text holds one. *)
Theorem rasa_markup_replaces_newlines (h : host) (text : pystr)
  (entities : jval) :
  let n := Z.of_nat (length text) in
  let pos (i : Z) : nat :=
    Z.to_nat (if i <? 0 then Z.max (i + n) 0 else Z.min i n) in
  let between (a b : Z) : pystr := take (pos b - pos a) (drop (pos a) text) in
  let spaced (s : pystr) : pystr :=
    map (fun c => if Ascii.eqb c NL then SP else c) s in
  rasa_example h text entities
  = (if negb (py_truthy entities) then Ok text
     else
       items <- py_iter entities;
       spans_sorted <- py_sorted false rasa_span_key items;
       spans <- rmap (rasa_span h) spans_sorted;
       Ok (markup_from text 0 spans))
  /\ (forall last : Z, markup_from text last [] = drop (pos last) text)
  /\ (forall (last s e : Z) (l : pystr) (rest : list span),
        markup_from text last ((s, e, l) :: rest)
        = between last s
          ++ "["%char :: spaced (between s e) ++ "]"%char :: "("%char :: l
          ++ ")"%char :: markup_from text e rest)
  /\ (forall s e : Z,
        length (spaced (between s e)) = length (between s e)
        /\ (NL ∉ spaced (between s e))
        /\ (NL ∈ between s e -> spaced (between s e) <> between s e)).
Proof.
  intros n pos between spaced.
  split; [apply rasa_example_shape |].
  split; [reflexivity |].
  split.
  - intros last s e l rest. cbn [markup_from].
    rewrite !py_slice_take_drop. reflexivity.
  - intros s e. split; [apply length_replace_nl |].
    split; [apply replace_nl_no_newline | apply replace_nl_changes].
Qed.

(** A span over a newline, with text before and after it. *)
Lemma rasa_markup_replaces_newlines_witness :
  rasa_example plain_host (str "fly to new
york now") (JArr [sample_entity 7 15 "city"])
  = Ok (str "fly to [new york](city) now").
Proof.
  destruct (rasa_markup_replaces_newlines plain_host (str "fly to new
york now") (JArr [sample_entity 7 15 "city"])) as (Hex & Hnil & Hcons & _).
  rewrite Hex. cbn [negb py_truthy py_iter rbind].
  replace (py_sorted false rasa_span_key [sample_entity 7 15 "city"])
    with (Ok [sample_entity 7 15 "city"]) by reflexivity.
  cbn [rbind].
  replace (rmap (rasa_span plain_host) [sample_entity 7 15 "city"])
    with (Ok [(7, 15, str "city")]) by reflexivity.
  cbn [rbind]. rewrite Hcons, Hnil. vm_compute. reflexivity.
Defined.

(** C10, as stated, fails in its last clause: the markup may hold the text
    of a span as it is, newline included — after a later span that ends
    before it, or where the text outside the spans has the same
    characters. *)
Lemma rasa_span_reproduced_verbatim :
  (let text := str "new
york" in
   let es := [sample_entity 0 8 "city"; sample_entity 0 0 "x"] in
   let example := str "[new york](city)[](x)new
york" in
   rasa_example plain_host text (JArr es) = Ok example
   /\ NL ∈ py_slice text 0 8
   /\ py_slice text 0 8 `suffix_of` example)
  /\ (let text := str "a
b a
b" in
      let es := [sample_entity 0 3 "l"] in
      let example := str "[a b](l) a
b" in
      rasa_example plain_host text (JArr es) = Ok example
      /\ NL ∈ py_slice text 0 3
      /\ py_slice text 0 3 `suffix_of` example).
Proof.
  split; (split; [vm_compute; reflexivity |]);
    (split; [apply (bool_decide_unpack _); vm_compute; exact I |]).
  - exists (str "[new york](city)[](x)"). vm_compute. reflexivity.
  - exists (str "[a b](l) "). vm_compute. reflexivity.
Qed.

(** ** Round trip through the Rasa markup *)

Lemma split_at_app (c : ascii) (t r : pystr) :
  c ∉ t -> split_at c (t ++ c :: r) = Some (t, r).
Proof.
  induction t as [|x t IH]; simpl; intros Hc.
  - replace (chr_eqb c c) with true; [reflexivity |].
    symmetry. apply chr_eqb_eq. reflexivity.
  - apply not_elem_of_cons in Hc as [Hx Ht].
    replace (chr_eqb x c) with false.
    + rewrite (IH Ht). reflexivity.
    + symmetry. apply chr_eqb_neq. congruence.
Qed.

Lemma group_at_app (t l rest : pystr) :
  "]"%char ∉ t -> ")"%char ∉ l ->
  group_at (t ++ "]"%char :: "("%char :: l ++ ")"%char :: rest)
  = Some (t, l, (length t + length l + 3)%nat).
Proof.
  intros Ht Hl. unfold group_at.
  rewrite (split_at_app _ t _ Ht), (split_at_app _ l _ Hl). reflexivity.
Qed.

Lemma extract_from_skip (u rest : pystr) :
  extract_from (length u) (u ++ rest) = extract_from 0 rest.
Proof. induction u as [|c u IH]; simpl; [reflexivity | exact IH]. Qed.

Lemma extract_from_plain (pre rest : pystr) :
  "["%char ∉ pre -> extract_from 0 (pre ++ rest) = extract_from 0 rest.
Proof.
  induction pre as [|c pre IH]; simpl; intros Hc; [reflexivity |].
  apply not_elem_of_cons in Hc as [Hx Hpre].
  replace (chr_eqb c "["%char) with false; [exact (IH Hpre) |].
  symmetry. apply chr_eqb_neq. congruence.
Qed.

Lemma extract_from_group (t l rest : pystr) :
  "]"%char ∉ t -> ")"%char ∉ l ->
  extract_from 0 ("["%char :: t ++ "]"%char :: "("%char :: l
                   ++ ")"%char :: rest)
  = (t, l) :: extract_from 0 rest.
Proof.
  intros Ht Hl. cbn [extract_from].
  replace (chr_eqb "[" "[") with true by reflexivity.
  rewrite (group_at_app t l rest Ht Hl). f_equal.
  replace (t ++ "]"%char :: "("%char :: l ++ ")"%char :: rest)
    with ((t ++ "]"%char :: "("%char :: l ++ [")"%char]) ++ rest).
  - replace (length t + length l + 3)%nat
      with (length (t ++ "]"%char :: "("%char :: l ++ [")"%char])).
    + apply extract_from_skip.
    + rewrite length_app. cbn [length]. rewrite length_app. cbn [length]. lia.
  - rewrite <- app_assoc. cbn [app]. rewrite <- app_assoc. reflexivity.
Qed.

Lemma spans_in_order_sorted (n : Z) (ents : list entity) :
  forall last : Z,
    spans_in_order n last ents ->
    Forall (fun e => last <= e_start e) ents
    /\ StronglySorted key_le (map (fun e => (e_start e, entity_json e)) ents).
Proof.
  induction ents as [|e ents IH]; intros last Hord; cbn [spans_in_order map] in *.
  - split; constructor.
  - destruct Hord as (H1 & H2 & H3 & Hrest).
    destruct (IH _ Hrest) as [Hall Hs].
    split.
    + constructor; [exact H1 |].
      eapply Forall_impl; [exact Hall |]. intros x Hx. simpl in Hx. lia.
    + constructor; [exact Hs |].
      apply Forall_fmap. eapply Forall_impl; [exact Hall |].
      intros x Hx. unfold key_le. simpl in *. lia.
Qed.

Lemma keyed_entities (ents : list entity) :
  keyed (fun x => rbind (rasa_span_key x) (fun k => Ok (if false then - k else k)))
        (map entity_json ents)
  = Ok (map (fun e => (e_start e, entity_json e)) ents).
Proof.
  induction ents as [|e ents IH]; cbn [map keyed]; [reflexivity |].
  rewrite IH. reflexivity.
Qed.

Lemma rmap_entities (h : host) (ents : list entity) :
  rmap (rasa_span h) (map entity_json ents) = Ok (map entity_span ents).
Proof.
  induction ents as [|e ents IH]; cbn [map rmap]; [reflexivity |].
  rewrite IH. reflexivity.
Qed.

(** The example of a record whose entities are listed in ascending order of
    start. *)
Lemma rasa_example_in_order (h : host) (text : pystr) (ents : list entity) :
  StronglySorted key_le (map (fun e => (e_start e, entity_json e)) ents) ->
  rasa_example h text (JArr (map entity_json ents))
  = Ok (markup_from text 0 (map entity_span ents))
  \/ ents = [] /\ rasa_example h text (JArr (map entity_json ents)) = Ok text.
Proof.
  intros Hs. destruct ents as [|e ents]; [right; split; reflexivity |].
  left. rewrite rasa_example_shape.
  change (negb (py_truthy (JArr (map entity_json (e :: ents))))) with false.
  cbn [py_iter rbind].
  unfold py_sorted.
  rewrite (keyed_entities (e :: ents)). cbn [rbind].
  rewrite (sort_keyed_id _ Hs).
  replace (map snd (map (fun e => (e_start e, entity_json e)) (e :: ents)))
    with (map entity_json (e :: ents)) by (rewrite map_map; reflexivity).
  cbn [rbind]. rewrite (rmap_entities h (e :: ents)).
  reflexivity.
Qed.

Lemma py_slice_text_between (text : pystr) (a b : Z) :
  0 <= a -> a <= b -> b <= Z.of_nat (length text) ->
  py_slice text a b = text_between text a b.
Proof.
  intros Ha Hab Hb. rewrite py_slice_take_drop. cbv zeta.
  unfold text_between.
  destruct (Z.ltb_spec a 0), (Z.ltb_spec b 0); try lia.
  rewrite !Z.min_l by lia. reflexivity.
Qed.

Lemma py_slice_from_drop {A} (l : list A) (a : Z) :
  0 <= a -> py_slice_from l a = drop (Z.to_nat a) l.
Proof.
  intros Ha. unfold py_slice_from, clamp_index.
  destruct (Z.ltb_spec a 0); [lia |].
  destruct (Z.le_ge_cases a (Z.of_nat (length l))) as [Hle | Hge].
  - rewrite Z.min_l by exact Hle. reflexivity.
  - rewrite Z.min_r by exact Hge. rewrite Nat2Z.id, drop_all.
    symmetry. apply drop_ge. lia.
Qed.

(** Reading back the markup of spans in order, when the reserved
    characters are where [markup_readable] allows them. *)
Lemma extract_markup_readable (text : pystr) (ents : list entity) :
  forall last : Z,
    0 <= last ->
    spans_in_order (Z.of_nat (length text)) last ents ->
    markup_readable text last ents ->
    extract_spans (markup_from text last (map entity_span ents))
    = map (fun e => (text_between text (e_start e) (e_end e), e_label e))
          ents.
Proof.
  induction ents as [|e ents IH]; intros last Hlast Hord Hread;
    cbn [map markup_from entity_span spans_in_order markup_readable] in *.
  - rewrite py_slice_from_drop by exact Hlast. unfold extract_spans.
    rewrite <- (app_nil_r (drop _ text)).
    rewrite extract_from_plain; [reflexivity | exact Hread].
  - destruct Hord as (H1 & H2 & H3 & Hrest).
    destruct Hread as (R1 & R2 & R3 & R4 & Rrest).
    rewrite !py_slice_text_between by lia.
    unfold extract_spans.
    rewrite extract_from_plain by exact R1.
    rewrite replace_nl_id by exact R3.
    change (str "[" ++ text_between text (e_start e) (e_end e) ++ str "]("
            ++ e_label e ++ str ")"
            ++ markup_from text (e_end e) (map entity_span ents))
      with ("["%char :: text_between text (e_start e) (e_end e)
            ++ "]"%char :: "("%char :: e_label e
            ++ ")"%char :: markup_from text (e_end e) (map entity_span ents)).
    rewrite extract_from_group; [| exact R2 | exact R4].
    f_equal. apply IH; [lia | exact Hrest | exact Rrest].
Qed.

Lemma drop_while_suffix {A} (p : A -> bool) (l : list A) :
  exists pre, l = pre ++ drop_while p l.
Proof.
  induction l as [|x l [pre IH]]; cbn [drop_while].
  - exists []. reflexivity.
  - destruct (p x).
    + exists (x :: pre). cbn. rewrite <- IH. reflexivity.
    + exists []. reflexivity.
Qed.

(** Stripping at the right leaves a prefix. *)
Lemma py_rstrip_take (s : pystr) :
  py_rstrip s = take (length (py_rstrip s)) s.
Proof.
  unfold py_rstrip.
  destruct (drop_while_suffix py_isspace (rev s)) as [pre Hpre].
  set (kept := drop_while py_isspace (rev s)) in *.
  assert (s = rev kept ++ rev pre) as Hs.
  { rewrite <- rev_app_distr, <- Hpre, rev_involutive. reflexivity. }
  transitivity (take (length (rev kept)) (rev kept ++ rev pre)).
  - symmetry. apply take_app_length.
  - rewrite <- Hs. reflexivity.
Qed.

Lemma text_between_take (l : pystr) (k : nat) (a b : Z) :
  0 <= a -> a <= b -> b <= Z.of_nat k ->
  text_between (take k l) a b = text_between l a b.
Proof.
  intros Ha Hab Hb. unfold text_between. apply list_eq. intros i.
  destruct (decide (i < Z.to_nat b - Z.to_nat a)%nat) as [Hi | Hi].
  - rewrite !lookup_take_lt, !lookup_drop by exact Hi.
    apply lookup_take_lt. lia.
  - rewrite !lookup_take_ge by lia. reflexivity.
Qed.

Lemma elem_of_drop_take {A} (l : list A) (k a : nat) (x : A) :
  x ∈ drop a (take k l) -> x ∈ drop a l.
Proof.
  intros Hx. apply list_elem_of_lookup in Hx as [i Hi].
  rewrite lookup_drop in Hi. apply lookup_take_Some in Hi as [Hi _].
  apply list_elem_of_lookup. exists i. rewrite lookup_drop. exact Hi.
Qed.

Lemma markup_readable_take (l : pystr) (k : nat) (ents : list entity) :
  forall last : Z,
    0 <= last ->
    spans_in_order (Z.of_nat k) last ents ->
    markup_readable l last ents ->
    markup_readable (take k l) last ents.
Proof.
  induction ents as [|e ents IH]; intros last Hlast Hord Hread;
    cbn [spans_in_order markup_readable] in *.
  - intros Hin. apply Hread. eapply elem_of_drop_take, Hin.
  - destruct Hord as (H1 & H2 & H3 & Hrest).
    destruct Hread as (R1 & R2 & R3 & R4 & Rrest).
    rewrite !text_between_take by lia.
    repeat split; try assumption. apply IH; [lia | assumption ..].
Qed.

Lemma spans_in_order_bounds (n : Z) (ents : list entity) :
  forall last : Z,
    0 <= last ->
    spans_in_order n last ents ->
    Forall (fun e => 0 <= e_start e /\ e_start e <= e_end e /\ e_end e <= n)
           ents.
Proof.
  induction ents as [|e ents IH]; intros last Hlast Hord;
    cbn [spans_in_order] in Hord; constructor.
  - lia.
  - apply (IH (e_end e)); [lia | tauto].
Qed.

(** C3, as amended.  For a record whose text has no white space at its
    start and is not blank, whose spans are in order, apart and within the
    text without its trailing white space, and in which the reserved
    characters are where [markup_readable] allows them — no opening
    bracket outside the spans, no closing bracket and no newline in a
    span, no closing parenthesis in a label: the record has an example,
    and reading the groups back from it gives the substrings
    [text[start:end]] and the labels of the entities, in order. *)
Theorem rasa_roundtrip (h : host) (d : list (pystr * jval)) (raw : pystr)
  (ents : list entity) :
  dict_get d (str "text") = Some (JStr raw) ->
  dict_get d (str "entities") = Some (JArr (map entity_json ents)) ->
  py_lstrip raw = raw ->
  py_strip raw <> [] ->
  spans_in_order (Z.of_nat (length (py_strip raw))) 0 ents ->
  markup_readable raw 0 ents ->
  exists intent example,
    rasa_record h (JObj d) = Ok (Some (intent, example))
    /\ extract_spans example
       = map (fun e => (take (Z.to_nat (e_end e) - Z.to_nat (e_start e))
                             (drop (Z.to_nat (e_start e)) raw),
                        e_label e)) ents.
Proof.
  intros Htext Hents Hlead Hne Hord Hread.
  unfold rasa_record. cbn [py_as_dict rbind].
  unfold dict_get_or. rewrite Htext, Hents. cbn [py_strip_attr rbind].
  rewrite bool_decide_eq_false_2 by exact Hne.
  set (k := length (py_strip raw)) in *.
  assert (py_strip raw = take k raw) as Hprefix.
  { subst k. unfold py_strip. rewrite Hlead. apply py_rstrip_take. }
  rewrite Hprefix in *. clear Hprefix.
  set (t := take k raw) in *.
  destruct (spans_in_order_sorted _ ents 0 Hord) as [_ Hsorted].
  assert (rasa_example h t (JArr (map entity_json ents))
          = Ok (markup_from t 0 (map entity_span ents))) as Hex.
  { destruct (rasa_example_in_order h t ents Hsorted) as [Hex | [-> Hex]];
      [exact Hex |].
    rewrite Hex. cbn [map markup_from]. rewrite py_slice_from_zero.
    reflexivity. }
  rewrite Hex. cbn [rbind]. eexists _, _. split; [reflexivity |].
  rewrite (extract_markup_readable t ents 0); [| lia | | ].
  - apply map_ext_Forall.
    eapply Forall_impl;
      [apply (spans_in_order_bounds (Z.of_nat k) ents 0); [lia | exact Hord] |].
    intros e (H1 & H2 & H3). cbn beta. f_equal.
    apply text_between_take; assumption.
  - subst t. rewrite length_take.
    destruct (Nat.min_spec k (length raw)) as [[_ ->] | [Hle ->]];
      [exact Hord |].
    assert (length raw = k) as <-; [| exact Hord].
    apply Nat.le_antisymm; [exact Hle |]. subst k.
    unfold py_strip. rewrite Hlead, py_rstrip_take, length_take. lia.
  - apply markup_readable_take; [lia | exact Hord | exact Hread].
Qed.

(** A record with two spans, a closing bracket before the first, a
    newline between them and white space after the last. *)
Lemma rasa_roundtrip_witness :
  let raw := str "ok] book 2 tickets
to paris  " in
  let ents := [{| e_start := 9; e_end := 10; e_label := str "qty" |};
               {| e_start := 22; e_end := 27; e_label := str "city" |}] in
  exists intent example,
    rasa_record plain_host
      (JObj [(str "text", JStr raw);
             (str "entities", JArr (map entity_json ents))])
    = Ok (Some (intent, example))
    /\ example = str "ok] book [2](qty) tickets
to [paris](city)"
    /\ extract_spans example
       = [(str "2", str "qty"); (str "paris", str "city")].
Proof.
  intros raw ents.
  destruct (rasa_roundtrip plain_host
              [(str "text", JStr raw);
               (str "entities", JArr (map entity_json ents))] raw ents)
    as (intent & example & Hrec & Hext).
  - reflexivity.
  - reflexivity.
  - vm_compute. reflexivity.
  - vm_compute. discriminate.
  - vm_compute. repeat split; discriminate.
  - cbn [markup_readable ents e_start e_end e_label].
    repeat split; apply (bool_decide_unpack _); vm_compute; exact I.
  - exists intent, example. split; [exact Hrec |].
    split; [| rewrite Hext; vm_compute; reflexivity].
    pose proof Hrec as H. vm_compute in H. injection H as _ <-.
    vm_compute. reflexivity.
Defined.

(** C3, as stated, fails, each time with one span within the text: the
    offsets are applied to the stripped text, which moves a span when the
    text starts with white space and cuts a span that ends in the white
    space at the end of the text; a newline inside a span is replaced; a
    bracketed group that the text holds already is read back as a span; a
    closing bracket in a span ends the span text early; a closing
    parenthesis in a label ends the label early; and a record with an
    empty text has no example. *)
Lemma rasa_roundtrip_fails :
  (let raw := str "  hi bob" in
   let ents := [{| e_start := 5; e_end := 8; e_label := str "name" |}] in
   spans_in_order (Z.of_nat (length raw)) 0 ents
   /\ ~ roundtrip_holds plain_host raw ents)
  /\ (let raw := str "hi bob " in
      let ents := [{| e_start := 3; e_end := 7; e_label := str "name" |}] in
      spans_in_order (Z.of_nat (length raw)) 0 ents
      /\ ~ roundtrip_holds plain_host raw ents)
  /\ (let raw := str "fly to new
york now" in
      let ents := [{| e_start := 7; e_end := 15; e_label := str "city" |}] in
      spans_in_order (Z.of_nat (length raw)) 0 ents
      /\ ~ roundtrip_holds plain_host raw ents)
  /\ (let raw := str "[x](y) bob" in
      let ents := [{| e_start := 7; e_end := 10; e_label := str "name" |}] in
      spans_in_order (Z.of_nat (length raw)) 0 ents
      /\ ~ roundtrip_holds plain_host raw ents)
  /\ (let raw := str "a]b c" in
      let ents := [{| e_start := 0; e_end := 3; e_label := str "x" |}] in
      spans_in_order (Z.of_nat (length raw)) 0 ents
      /\ ~ roundtrip_holds plain_host raw ents)
  /\ (let raw := str "hi bob" in
      let ents := [{| e_start := 3; e_end := 6; e_label := str "a)b" |}] in
      spans_in_order (Z.of_nat (length raw)) 0 ents
      /\ ~ roundtrip_holds plain_host raw ents)
  /\ (let raw := str "" in
      let ents := [{| e_start := 0; e_end := 0; e_label := str "x" |}] in
      spans_in_order (Z.of_nat (length raw)) 0 ents
      /\ ~ roundtrip_holds plain_host raw ents).
Proof.
  repeat split; try (vm_compute; congruence);
    intros (intent & example & Hrec & Hext);
    vm_compute in Hrec;
    first [ discriminate Hrec
          | injection Hrec as <- <-;
            vm_compute in Hext; discriminate Hext ].
Qed.

(** ** The spaCy conversion *)

Section Spacy.

Variable h : host.

Lemma spacy_entity_span_of (e : jval) :
  match spacy_entity h e with
  | Ok t => Some t
  | Raise _ => None
  end = span_of h e.
Proof.
  unfold spacy_entity, span_of.
  destruct e; try reflexivity. cbn [py_as_dict rbind].
  destruct (py_int (dict_get_or d (str "start") JNull)); cbn [rbind];
    [| reflexivity].
  destruct (py_int (dict_get_or d (str "end") JNull)); reflexivity.
Qed.

Lemma spacy_entity_step_span_of (acc : list span * gset pystr) (e : jval) :
  spacy_entity_step h acc e
  = match span_of h e with
    | Some t => (acc.1 ++ [t], acc.2 ∪ {[t.2]})
    | None => acc
    end.
Proof.
  unfold spacy_entity_step. rewrite <- spacy_entity_span_of.
  destruct (spacy_entity h e) as [[[s en] lab]|x]; reflexivity.
Qed.

(** The loop of lines 40-49: the spans of the entities that [int] accepts,
    in order, and their labels. *)
Lemma spacy_entity_loop (es : list jval) :
  forall (spans : list span) (labels : gset pystr),
    fold_left (spacy_entity_step h) es (spans, labels)
    = (spans ++ omap (span_of h) es,
       labels ∪ list_to_set (omap (span_of h) es).*2).
Proof.
  induction es as [|e es IH]; intros spans labels; cbn [fold_left].
  - cbn. rewrite app_nil_r, (right_id_L ∅ (∪)). reflexivity.
  - rewrite spacy_entity_step_span_of. cbn [omap list_omap].
    destruct (span_of h e) as [t|]; cbn [fst snd].
    + rewrite IH, <- app_assoc. cbn [fmap list_fmap].
      rewrite list_to_set_cons, (assoc_L (∪)). reflexivity.
    + apply IH.
Qed.

Lemma spacy_record_step_dict (acc : list training_example * gset pystr)
  (d : list (pystr * jval)) (es : list jval) :
  py_iter (dict_get_or d (str "entities") (JArr [])) = Ok es ->
  spacy_record_step h acc (JObj d)
  = Ok (if py_truthy (dict_get_or d (str "text") (JStr []))
        then acc.1 ++ [(dict_get_or d (str "text") (JStr []),
                        omap (span_of h) es)]
        else acc.1,
        acc.2 ∪ list_to_set (omap (span_of h) es).*2).
Proof.
  intros Hes. unfold spacy_record_step. cbn [py_as_dict rbind].
  rewrite Hes. cbn [rbind]. rewrite spacy_entity_loop. reflexivity.
Qed.

(** Only a builtin operation raises in the conversion. *)
Lemma spacy_record_step_raise (acc : list training_example * gset pystr)
  (ann : jval) (x : exn) :
  spacy_record_step h acc ann = Raise x -> exists c, x = Builtin c.
Proof.
  unfold spacy_record_step.
  destruct ann; cbn [py_as_dict rbind]; try (intros [= <-]; eauto).
  destruct (dict_get_or d (str "entities") (JArr [])); cbn [py_iter rbind];
    try (intros [= <-]; eauto);
    rewrite spacy_entity_loop; discriminate.
Qed.

Lemma spacy_loop_raise (anns : list jval) :
  forall (acc : list training_example * gset pystr) (x : exn),
    rfold (spacy_record_step h) acc anns = Raise x -> exists c, x = Builtin c.
Proof.
  induction anns as [|ann anns IH]; intros acc x; cbn [rfold].
  - discriminate.
  - destruct (spacy_record_step h acc ann) as [acc'|y] eqn:E; cbn [rbind].
    + apply IH.
    + intros [= <-]. eapply spacy_record_step_raise, E.
Qed.

Lemma spacy_convert_raise (annotations : jval) (x : exn) :
  spacy_convert h annotations = Raise x -> exists c, x = Builtin c.
Proof.
  unfold spacy_convert.
  destruct (py_iter annotations) as [anns|y] eqn:E; cbn [rbind].
  - apply spacy_loop_raise.
  - intros [= <-]. destruct annotations; try discriminate E;
      injection E as <-; eauto.
Qed.

End Spacy.

Section SpacyClaims.

Variable h : host.

Lemma spacy_record_step_Ok (acc acc' : list training_example * gset pystr)
  (ann : jval) :
  spacy_record_step h acc ann = Ok acc' ->
  exists d es,
    ann = JObj d
    /\ py_iter (dict_get_or d (str "entities") (JArr [])) = Ok es
    /\ acc'.1 = (if py_truthy (dict_get_or d (str "text") (JStr []))
                 then acc.1 ++ [(dict_get_or d (str "text") (JStr []),
                                 omap (span_of h) es)]
                 else acc.1).
Proof.
  intros Hstep.
  destruct ann; try discriminate Hstep.
  destruct (py_iter (dict_get_or d (str "entities") (JArr []))) as [es|x]
    eqn:Hes.
  - rewrite (spacy_record_step_dict h acc d es Hes) in Hstep.
    injection Hstep as <-. exists d, es. auto.
  - unfold spacy_record_step in Hstep. cbn [py_as_dict rbind] in Hstep.
    rewrite Hes in Hstep. discriminate Hstep.
Qed.

Lemma spacy_loop_keeps (anns : list jval) :
  forall (acc : list training_example * gset pystr)
         (td : list training_example) (labels : gset pystr),
    rfold (spacy_record_step h) acc anns = Ok (td, labels) ->
    (forall x, x ∈ acc.1 -> x ∈ td)
    /\ (forall d, JObj d ∈ anns ->
        exists es,
          py_iter (dict_get_or d (str "entities") (JArr [])) = Ok es
          /\ (py_truthy (dict_get_or d (str "text") (JStr [])) = true ->
              (dict_get_or d (str "text") (JStr []), omap (span_of h) es)
              ∈ td)).
Proof.
  induction anns as [|ann anns IH]; intros acc td labels Hloop;
    cbn [rfold] in Hloop.
  - injection Hloop as ->. split; [auto |].
    intros d Hd. apply elem_of_nil in Hd. contradiction.
  - apply rbind_Ok in Hloop as (acc' & Hstep & Hloop).
    destruct (IH acc' td labels Hloop) as [Hmono Hrest].
    destruct (spacy_record_step_Ok acc acc' ann Hstep)
      as (d0 & es0 & -> & Hes0 & Hacc').
    split.
    + intros x Hx. apply Hmono. rewrite Hacc'.
      destruct (py_truthy _); [apply elem_of_app; auto | exact Hx].
    + intros d Hd. apply elem_of_cons in Hd as [[= ->] | Hd];
        [| apply Hrest, Hd].
      exists es0. split; [exact Hes0 |].
      intros Htruthy. apply Hmono. rewrite Hacc', Htruthy.
      apply elem_of_app. right. apply list_elem_of_singleton. reflexivity.
Qed.

(** What a conversion that completes holds comes from the records. *)
Lemma spacy_loop_only (anns : list jval) :
  forall (acc : list training_example * gset pystr)
         (td : list training_example) (labels : gset pystr),
    rfold (spacy_record_step h) acc anns = Ok (td, labels) ->
    forall x, x ∈ td ->
      x ∈ acc.1
      \/ exists d es,
           JObj d ∈ anns
           /\ py_iter (dict_get_or d (str "entities") (JArr [])) = Ok es
           /\ x = (dict_get_or d (str "text") (JStr []), omap (span_of h) es).
Proof.
  induction anns as [|ann anns IH]; intros acc td labels Hloop x Hx;
    cbn [rfold] in Hloop.
  - injection Hloop as ->. left. exact Hx.
  - apply rbind_Ok in Hloop as (acc' & Hstep & Hloop).
    destruct (spacy_record_step_Ok acc acc' ann Hstep)
      as (d0 & es0 & -> & Hes0 & Hacc').
    destruct (IH acc' td labels Hloop x Hx) as [Hin | (d & es & Hd & Hes & ->)].
    + rewrite Hacc' in Hin.
      destruct (py_truthy (dict_get_or d0 (str "text") (JStr [])));
        [| left; exact Hin].
      apply elem_of_app in Hin as [Hin | Hin]; [left; exact Hin |].
      apply list_elem_of_singleton in Hin as ->.
      right. exists d0, es0. split; [left | auto].
    + right. exists d, es. split; [right; exact Hd | auto].
Qed.

(** C4.  In a conversion that completes, every record is kept when its
    text is not empty, with the spans of its entities as [int] reads them:
    an entity whose start or end fails the coercion gives no span, and
    every other entity of the record gives its span.  And every training
    example is such a record with such spans: nowhere in the output is
    there a span of an entity that fails the coercion. *)
Theorem spacy_drops_uncoercible_entities (anns : list jval)
  (td : list training_example) (labels : gset pystr)
  (d : list (pystr * jval)) :
  spacy_convert h (JArr anns) = Ok (td, labels) ->
  JObj d ∈ anns ->
  let text := dict_get_or d (str "text") (JStr []) in
  exists es,
    py_iter (dict_get_or d (str "entities") (JArr [])) = Ok es
    /\ (py_truthy text = true -> (text, omap (span_of h) es) ∈ td)
    /\ (forall ed,
          JObj ed ∈ es ->
          (exists x, py_int (dict_get_or ed (str "start") JNull) = Raise x)
          \/ (exists x, py_int (dict_get_or ed (str "end") JNull) = Raise x) ->
          span_of h (JObj ed) = None)
    /\ (forall t : span,
          t ∈ omap (span_of h) es <->
          exists e, e ∈ es /\ span_of h e = Some t)
    /\ (forall ed s en,
          py_int (dict_get_or ed (str "start") JNull) = Ok s ->
          py_int (dict_get_or ed (str "end") JNull) = Ok en ->
          span_of h (JObj ed)
          = Some (s, en, py_str h (dict_get_or ed (str "label") JNull)))
    /\ (forall (t : jval) (spans : list span),
          (t, spans) ∈ td ->
          exists d' es',
            JObj d' ∈ anns
            /\ py_iter (dict_get_or d' (str "entities") (JArr [])) = Ok es'
            /\ t = dict_get_or d' (str "text") (JStr [])
            /\ spans = omap (span_of h) es').
Proof.
  intros Hconv Hd text. unfold spacy_convert in Hconv.
  cbn [py_iter rbind] in Hconv.
  destruct (spacy_loop_keeps anns _ td labels Hconv) as [_ Hkeep].
  destruct (Hkeep d Hd) as (es & Hes & Hin).
  exists es. split; [exact Hes |]. split; [exact Hin |].
  split; [| split; [| split]].
  - intros ed _ [[x Hx] | [x Hx]]; unfold span_of; rewrite Hx.
    + reflexivity.
    + destruct (py_int (dict_get_or ed (str "start") JNull)); reflexivity.
  - intros t. apply list_elem_of_omap.
  - intros ed s en Hs Hen. unfold span_of. rewrite Hs, Hen. reflexivity.
  - intros t spans Hts.
    destruct (spacy_loop_only anns _ td labels Hconv _ Hts)
      as [Hnil | (d' & es' & Hd' & Hes' & [= -> ->])].
    + apply elem_of_nil in Hnil. contradiction.
    + exists d', es'. auto.
Qed.

End SpacyClaims.

(** A record with three entities that [int] refuses — a word, a digit
    after the separator U+001F, no start at all — and one that it accepts. *)
Lemma spacy_drops_uncoercible_entities_witness :
  let word := JObj [(str "start", JStr (str "abc")); (str "end", JInt 4);
                    (str "label", JStr (str "city"))] in
  let separator := JObj [(str "start", JStr (ascii_of_nat 31 :: str "1"));
                         (str "end", JInt 3);
                         (str "label", JStr (str "x"))] in
  let missing := JObj [(str "end", JInt 5); (str "label", JStr (str "y"))] in
  let es := [word; separator; sample_entity 7 11 "city"; missing] in
  let d := [(str "text", JStr (str "fly to rome"));
            (str "entities", JArr es)] in
  let td := [(JStr (str "fly to rome"), [(7, 11, str "city")])] in
  spacy_convert plain_host (JArr [JObj d]) = Ok (td, {[ str "city" ]})
  /\ span_of plain_host word = None
  /\ span_of plain_host separator = None
  /\ span_of plain_host missing = None
  /\ (JStr (str "fly to rome"), omap (span_of plain_host) es) ∈ td
  /\ omap (span_of plain_host) es = [(7, 11, str "city")].
Proof.
  intros word separator missing es d td.
  assert (spacy_convert plain_host (JArr [JObj d]) = Ok (td, {[ str "city" ]}))
    as Hconv by (vm_compute; reflexivity).
  destruct (spacy_drops_uncoercible_entities plain_host [JObj d] td
              {[ str "city" ]} d Hconv) as (es' & Hes & Hin & Hdrop & _).
  { apply list_elem_of_singleton. reflexivity. }
  assert (es' = es) as -> by (vm_compute in Hes; injection Hes as <-; reflexivity).
  split; [exact Hconv |].
  split; [| split; [| split; [| split]]].
  - apply Hdrop.
    + left.
    + left. eexists. vm_compute. reflexivity.
  - apply Hdrop.
    + right. left.
    + left. eexists. vm_compute. reflexivity.
  - apply Hdrop.
    + do 3 right. left.
    + left. eexists. vm_compute. reflexivity.
  - apply Hin. reflexivity.
  - vm_compute. reflexivity.
Defined.

(** ** Entities that break the offset invariant *)

Lemma keyed_exists {A} (key : A -> result Z) (l : list A) :
  Forall (fun x => exists k, key x = Ok k) l ->
  exists kl, keyed key l = Ok kl /\ map snd kl = l.
Proof.
  induction 1 as [|x l [k Hk] Hl (kl & Hkl & Hsnd)]; cbn [keyed].
  - exists []. split; reflexivity.
  - exists ((k, x) :: kl). rewrite Hk, Hkl. cbn. rewrite Hsnd.
    split; reflexivity.
Qed.

Lemma py_sorted_exists {A} (key : A -> result Z) (l : list A) :
  Forall (fun x => exists k, key x = Ok k) l ->
  exists l', py_sorted false key l = Ok l' /\ l' ≡ₚ l.
Proof.
  intros Hl. unfold py_sorted.
  destruct (keyed_exists (fun x => rbind (key x) (fun k => Ok k)) l)
    as (kl & Hkl & Hsnd).
  { eapply Forall_impl; [exact Hl |]. intros x [k ->]. exists k. reflexivity. }
  rewrite Hkl. cbn [rbind]. eexists. split; [reflexivity |].
  rewrite <- Hsnd. apply Permutation_map, sort_keyed_perm.
Qed.

Lemma rmap_exists {A B} (f : A -> result B) (l : list A) :
  Forall (fun x => exists y, f x = Ok y) l -> exists ys, rmap f l = Ok ys.
Proof.
  induction 1 as [|x l [y Hy] Hl [ys Hys]]; cbn [rmap].
  - exists []. reflexivity.
  - exists (y :: ys). rewrite Hy, Hys. reflexivity.
Qed.

Lemma rasa_span_key_of_span (h : host) (e : jval) (sp : span) :
  rasa_span h e = Ok sp -> rasa_span_key e = Ok sp.1.1.
Proof.
  unfold rasa_span, rasa_span_key.
  destruct (py_as_dict e) as [d|x]; cbn [rbind]; [| discriminate].
  destruct (py_int (dict_get_or d (str "start") (JInt 0))); cbn [rbind];
    [| discriminate].
  destruct (py_int (dict_get_or d (str "end") (JInt 0))); cbn [rbind];
    [| discriminate].
  intros [= <-]. reflexivity.
Qed.

Lemma rmap_Forall2 {A B} (f : A -> result B) (l : list A) (ys : list B) :
  rmap f l = Ok ys -> Forall2 (fun x y => f x = Ok y) l ys.
Proof.
  revert ys. induction l as [|x l IH]; intros ys Hm; cbn [rmap] in Hm.
  - injection Hm as <-. constructor.
  - apply rbind_Ok in Hm as (y & Hy & Hm).
    apply rbind_Ok in Hm as (ys' & Hys & Hm). injection Hm as <-.
    constructor; [exact Hy | apply IH, Hys].
Qed.

(** No offset makes the Rasa markup raise, as long as [int] accepts it:
    the spans are marked in the order of the sort, with the offsets they
    have. *)
Lemma rasa_example_total (h : host) (text : pystr) (es : list jval) :
  Forall (fun e => exists sp, rasa_span h e = Ok sp) es ->
  exists (sorted : list jval) (spans : list span),
    sorted ≡ₚ es
    /\ Forall2 (fun e sp => rasa_span h e = Ok sp) sorted spans
    /\ rasa_example h text (JArr es) = Ok (markup_from text 0 spans).
Proof.
  intros Hes. rewrite rasa_example_shape.
  destruct es as [|e0 es0].
  { exists [], []. split; [reflexivity |]. split; [constructor |].
    cbn. rewrite py_slice_from_zero. reflexivity. }
  cbn [py_truthy negb py_iter rbind].
  destruct (py_sorted_exists rasa_span_key (e0 :: es0))
    as (sorted & Hsorted & Hperm).
  { eapply Forall_impl; [exact Hes |]. intros e [sp Hsp].
    eexists. eapply rasa_span_key_of_span, Hsp. }
  rewrite Hsorted. cbn [rbind].
  destruct (rmap_exists (rasa_span h) sorted) as [spans Hspans].
  { rewrite Hperm. exact Hes. }
  rewrite Hspans. cbn [rbind].
  exists sorted, spans. split; [exact Hperm |].
  split; [apply rmap_Forall2, Hspans | reflexivity].
Qed.

(** C2, as amended.  Neither conversion checks [0 <= start <= end <=
    len(text)].  The spaCy conversion of a record raises nothing on account
    of its entities: it skips an entity only when [int] refuses its start
    or its end, and keeps every other entity with the offsets it has, in
    range or not.  The Rasa conversion, when [int] accepts the start and
    the end of every entity, raises nothing and marks every span: the
    example is the markup of the spans that the entities give, each with
    the offsets it has, and the markup takes the text before a span and
    the text of a span as the slices that Python cuts for these offsets. *)
Theorem conversions_do_not_check_offsets (h : host)
  (acc : list training_example * gset pystr) (d : list (pystr * jval))
  (text : pystr) (es : list jval) :
  dict_get_or d (str "text") (JStr []) = JStr text ->
  dict_get_or d (str "entities") (JArr []) = JArr es ->
  (exists labels,
     spacy_record_step h acc (JObj d)
     = Ok (if bool_decide (text = []) then acc.1
           else acc.1 ++ [(JStr text, omap (span_of h) es)], labels))
  /\ (forall e, e ∈ es -> span_of h e = None ->
      forall ed, e = JObj ed ->
        (exists x, py_int (dict_get_or ed (str "start") JNull) = Raise x)
        \/ (exists x, py_int (dict_get_or ed (str "end") JNull) = Raise x))
  /\ (forall ent : entity,
        entity_json ent ∈ es -> entity_span ent ∈ omap (span_of h) es)
  /\ (Forall (fun e => exists sp, rasa_span h e = Ok sp) es ->
      exists (sorted : list jval) (spans : list span),
        sorted ≡ₚ es
        /\ Forall2 (fun e sp => rasa_span h e = Ok sp) sorted spans
        /\ rasa_example h (py_strip text) (JArr es)
           = Ok (markup_from (py_strip text) 0 spans))
  /\ (forall ent : entity, rasa_span h (entity_json ent) = Ok (entity_span ent))
  /\ (forall (t : pystr) (last s e : Z) (l : pystr) (rest : list span),
        markup_from t last ((s, e, l) :: rest)
        = py_slice t last s
          ++ "["%char :: replace_nl (py_slice t s e)
          ++ "]"%char :: "("%char :: l ++ ")"%char :: markup_from t e rest).
Proof.
  intros Htext Hents. split; [| split; [| split; [| split; [| split]]]].
  - eexists. rewrite (spacy_record_step_dict h acc d es).
    + rewrite Htext. cbn [py_truthy].
      destruct (bool_decide (text = [])); reflexivity.
    + rewrite Hents. reflexivity.
  - intros e _ Hnone ed ->. unfold span_of in Hnone.
    destruct (py_int (dict_get_or ed (str "start") JNull)) as [s|x];
      [| eauto].
    destruct (py_int (dict_get_or ed (str "end") JNull)) as [en|x];
      [discriminate Hnone | eauto].
  - intros ent Hin. apply list_elem_of_omap.
    exists (entity_json ent). split; [exact Hin | reflexivity].
  - apply rasa_example_total.
  - reflexivity.
  - reflexivity.
Qed.

(** An entity that ends before it starts. *)
Lemma conversions_do_not_check_offsets_witness :
  let es := [sample_entity 3 1 "x"] in
  (exists labels,
     spacy_record_step plain_host ([], ∅)
       (JObj [(str "text", JStr (str "hello")); (str "entities", JArr es)])
     = Ok ([(JStr (str "hello"), [(3, 1, str "x")])], labels))
  /\ (exists spans : list span,
        Forall2 (fun e sp => rasa_span plain_host e = Ok sp) es spans
        /\ rasa_example plain_host (py_strip (str "hello")) (JArr es)
           = Ok (markup_from (py_strip (str "hello")) 0 spans))
  /\ rasa_example plain_host (py_strip (str "hello")) (JArr es)
     = Ok (str "hel[](x)ello").
Proof.
  intros es.
  destruct (conversions_do_not_check_offsets plain_host ([], ∅)
              [(str "text", JStr (str "hello")); (str "entities", JArr es)]
              (str "hello") es) as ([labels Hspacy] & _ & _ & Hrasa & _).
  - reflexivity.
  - reflexivity.
  - split; [| split].
    + exists labels. rewrite Hspacy. vm_compute. reflexivity.
    + destruct Hrasa as (sorted & spans & Hperm & Hspans & Hex).
      { repeat constructor. eexists. vm_compute. reflexivity. }
      apply Permutation_singleton_r in Hperm. subst sorted.
      exists spans. split; [exact Hspans | exact Hex].
    + vm_compute. reflexivity.
Defined.

(** C2, as stated, fails.  An entity with integer offsets that break the
    invariant is not skipped: the spaCy conversion keeps it and the Rasa
    conversion marks it.  And the Rasa conversion raises on an entity whose
    start [int] refuses. *)
Lemma malformed_entity_not_skipped :
  let record es :=
    JObj [(str "text", JStr (str "hello")); (str "entities", JArr es)] in
  spacy_convert plain_host (JArr [record [sample_entity 3 1 "x"]])
  = Ok ([(JStr (str "hello"), [(3, 1, str "x")])], {[ str "x" ]})
  /\ rasa_intents plain_host (JArr [record [sample_entity 3 1 "x"]])
     = Ok [(JStr (str "unknown_intent"), [str "hel[](x)ello"])]
  /\ rasa_intents plain_host
       (JArr [record [JObj [(str "start", JStr (str "abc"));
                            (str "end", JInt 2);
                            (str "label", JStr (str "x"))]]])
     = Raise (Builtin ValueError).
Proof. repeat split; vm_compute; reflexivity. Qed.

(** ** The spaCy trainer *)

(** C5.  The trainer raises the failure of line 54 exactly when spaCy is
    there, the annotation store is read, and the conversion completes with
    no training example; the file system is then as it was.  This is so in
    particular for an empty annotation list. *)
Theorem spacy_empty_training_set (h : host) (base_dir : pystr) (st : fs) :
  ((train_spacy_model h base_dir st).1 = Raise EmptyTrainingSet
   <-> spacy_import h = None
       /\ exists fh annotations labels,
            st !! annotations_file base_dir = Some fh
            /\ json_load h (f_content fh) = inl annotations
            /\ spacy_convert h annotations = Ok ([], labels))
  /\ ((train_spacy_model h base_dir st).1 = Raise EmptyTrainingSet ->
      (train_spacy_model h base_dir st).2 = st)
  /\ (forall fh,
        spacy_import h = None ->
        st !! annotations_file base_dir = Some fh ->
        json_load h (f_content fh) = inl (JArr []) ->
        train_spacy_model h base_dir st = (Raise EmptyTrainingSet, st)).
Proof.
  remember (train_spacy_model h base_dir st) as out eqn:Hout.
  unfold train_spacy_model in Hout.
  destruct (spacy_import h) as [msg|] eqn:Himp.
  { subst out. cbn.
    split; [split; [discriminate | intros [? _]; congruence] |].
    split; [discriminate | intros; congruence]. }
  unfold io_bind, io_state in Hout.
  destruct (st !! annotations_file base_dir) as [fh|] eqn:Hfile.
  2:{ subst out. cbn.
      split; [split; [discriminate |] |].
      - intros [_ (fh & a & l & ? & _)]. congruence.
      - split; [discriminate | intros; congruence]. }
  destruct (json_load h (f_content fh)) as [annotations|msg] eqn:Hload.
  2:{ subst out. cbn.
      split; [split; [discriminate |] |].
      - intros [_ (fh' & a & l & ? & ? & _)]. congruence.
      - split; [discriminate | intros; congruence]. }
  cbn [io_external io_ret io_lift] in Hout.
  destruct (spacy_convert h annotations) as [[td labels]|x] eqn:Hconv.
  2:{ subst out. cbn.
      destruct (spacy_convert_raise h annotations x Hconv) as [c ->].
      split; [split; [discriminate |] |].
      - intros [_ (fh' & a & l & ? & ? & ?)]. congruence.
      - split; [discriminate |]. intros fh' _ [= <-] Hl.
        assert (annotations = JArr []) as -> by congruence.
        discriminate Hconv. }
  destruct td as [|ex td].
  - subst out. cbn. split; [split |].
    + intros _. split; [reflexivity |]. eauto 10.
    + reflexivity.
    + split; reflexivity.
  - assert (out.1 <> Raise EmptyTrainingSet) as Hne.
    { subst out.
      destruct (spacy_fit h (ex :: td) labels (model_version_dir h base_dir) st)
        as [[[]|msg] st']; cbn; discriminate. }
    split; [split; [contradiction |] |].
    + intros [_ (fh' & a & l & ? & ? & ?)]. congruence.
    + split; [contradiction |]. intros fh' _ [= <-] Hl.
      assert (annotations = JArr []) as -> by congruence.
      discriminate Hconv.
Qed.

Example spacy_empty_list :
  train_spacy_model (sample_host (JArr []) (sample_proc 0) []) sample_base
    sample_fs
  = (Raise EmptyTrainingSet, sample_fs).
Proof.
  unfold train_spacy_model, io_bind, io_state. cbn [spacy_import sample_host].
  replace (sample_fs !! annotations_file sample_base)
    with (Some {| f_content := str "[...]"; f_mtime := 7 |})
    by (vm_compute; reflexivity).
  reflexivity.
Qed.

(** ** Grouping by intent *)

Section Grouping.

Variable h : host.

Lemma intents_append_lookup (m : intents_map) (k : jval) (ex : pystr) :
  key_eqb k k = true ->
  exists exs,
    intents_lookup (intents_append m k ex) k = Some exs /\ ex ∈ exs.
Proof.
  intros Hk. induction m as [|[k' exs'] m IH]; cbn [intents_append].
  - cbn [intents_lookup]. rewrite Hk. exists [ex].
    split; [reflexivity | apply list_elem_of_singleton; reflexivity].
  - destruct (key_eqb k' k) eqn:E; cbn [intents_lookup]; rewrite E.
    + exists (exs' ++ [ex]). split; [reflexivity |].
      apply elem_of_app. right. apply list_elem_of_singleton. reflexivity.
    + exact IH.
Qed.

Lemma intents_append_mono (m : intents_map) (k k2 : jval) (ex : pystr)
  (exs : list pystr) :
  intents_lookup m k2 = Some exs ->
  exists exs',
    intents_lookup (intents_append m k ex) k2 = Some exs'
    /\ forall x, x ∈ exs -> x ∈ exs'.
Proof.
  induction m as [|[k' e'] m IH]; cbn [intents_lookup intents_append];
    [discriminate |].
  intros Hl.
  destruct (key_eqb k' k) eqn:E; cbn [intents_lookup];
    destruct (key_eqb k' k2) eqn:E2.
  - injection Hl as <-. exists (e' ++ [ex]). split; [reflexivity |].
    intros x Hx. apply elem_of_app. auto.
  - exists exs. auto.
  - injection Hl as <-. exists e'. auto.
  - apply IH, Hl.
Qed.

Lemma rasa_record_step_mono (m m' : intents_map) (ann : jval) (k : jval)
  (exs : list pystr) :
  rasa_record_step h m ann = Ok m' ->
  intents_lookup m k = Some exs ->
  exists exs', intents_lookup m' k = Some exs' /\ forall x, x ∈ exs -> x ∈ exs'.
Proof.
  unfold rasa_record_step. intros Hstep Hl.
  apply rbind_Ok in Hstep as (r & _ & Hstep).
  destruct r as [[intent example]|].
  - unfold setdefault_append in Hstep.
    destruct (py_hashable intent); [| discriminate Hstep].
    injection Hstep as <-. apply intents_append_mono, Hl.
  - injection Hstep as <-. eauto.
Qed.

Lemma rasa_loop_mono (anns : list jval) :
  forall (m m' : intents_map) (k : jval) (exs : list pystr),
    rfold (rasa_record_step h) m anns = Ok m' ->
    intents_lookup m k = Some exs ->
    exists exs',
      intents_lookup m' k = Some exs' /\ forall x, x ∈ exs -> x ∈ exs'.
Proof.
  induction anns as [|ann anns IH]; intros m m' k exs Hloop Hl;
    cbn [rfold] in Hloop.
  - injection Hloop as <-. eauto.
  - apply rbind_Ok in Hloop as (m1 & Hstep & Hloop).
    destruct (rasa_record_step_mono m m1 ann k exs Hstep Hl)
      as (exs1 & Hl1 & Hsub1).
    destruct (IH m1 m' k exs1 Hloop Hl1) as (exs' & Hl' & Hsub').
    exists exs'. split; [exact Hl' | auto].
Qed.

Lemma rasa_loop_groups (anns : list jval) :
  forall (m m' : intents_map) (ann : jval) (intent : jval) (example : pystr),
    rfold (rasa_record_step h) m anns = Ok m' ->
    ann ∈ anns ->
    rasa_record h ann = Ok (Some (intent, example)) ->
    key_eqb intent intent = true ->
    exists exs, intents_lookup m' intent = Some exs /\ example ∈ exs.
Proof.
  induction anns as [|a anns IH];
    intros m m' ann intent example Hloop Hin Hrec Hrefl;
    cbn [rfold] in Hloop.
  - apply elem_of_nil in Hin. contradiction.
  - apply rbind_Ok in Hloop as (m1 & Hstep & Hloop).
    apply elem_of_cons in Hin as [<- | Hin]; [| eapply IH; eassumption].
    unfold rasa_record_step in Hstep. rewrite Hrec in Hstep.
    cbn [rbind] in Hstep. unfold setdefault_append in Hstep.
    destruct (py_hashable intent); [| discriminate Hstep].
    injection Hstep as <-.
    destruct (intents_append_lookup m intent example Hrefl)
      as (exs1 & Hl1 & Hex1).
    destruct (rasa_loop_mono anns _ m' intent exs1 Hloop Hl1)
      as (exs' & Hl' & Hsub).
    exists exs'. split; [exact Hl' | auto].
Qed.

Lemma rasa_record_intent (d : list (pystr * jval)) (intent : jval)
  (example : pystr) :
  rasa_record h (JObj d) = Ok (Some (intent, example)) ->
  intent = dict_get_or d (str "intent") (JStr (str "unknown_intent")).
Proof.
  unfold rasa_record. cbn [py_as_dict rbind]. intros Hrec.
  apply rbind_Ok in Hrec as (text & _ & Hrec).
  destruct (bool_decide (text = [])); [discriminate Hrec |].
  apply rbind_Ok in Hrec as (ex & _ & Hrec).
  injection Hrec as <- _. reflexivity.
Qed.

(** Every record of a conversion that completes has been converted. *)
Lemma rasa_loop_record_Ok (anns : list jval) :
  forall (m m' : intents_map) (ann : jval),
    rfold (rasa_record_step h) m anns = Ok m' ->
    ann ∈ anns ->
    exists r, rasa_record h ann = Ok r.
Proof.
  induction anns as [|a anns IH]; intros m m' ann Hloop Hin;
    cbn [rfold] in Hloop.
  - apply elem_of_nil in Hin. contradiction.
  - apply rbind_Ok in Hloop as (m1 & Hstep & Hloop).
    apply elem_of_cons in Hin as [-> | Hin]; [| eapply IH; eassumption].
    unfold rasa_record_step in Hstep.
    apply rbind_Ok in Hstep as (r & Hr & _). eauto.
Qed.

End Grouping.

(** C9.  The record of the specification gives the example
    [book a flight to [paris](city)] under the intent [book_flight].  And
    in a conversion that completes, a record that has no intent key and a
    text that is not blank has an example, which is among the examples of
    the intent [unknown_intent]. *)
Theorem rasa_groups_by_intent (h : host) :
  rasa_intents h (JArr [sample_record])
  = Ok [(JStr (str "book_flight"), [str "book a flight to [paris](city)"])]
  /\ (forall (anns : list jval) (m : intents_map) (d : list (pystr * jval))
             (raw : pystr),
        rasa_intents h (JArr anns) = Ok m ->
        JObj d ∈ anns ->
        dict_get d (str "intent") = None ->
        dict_get_or d (str "text") (JStr []) = JStr raw ->
        py_strip raw <> [] ->
        exists (example : pystr) (exs : list pystr),
          rasa_example h (py_strip raw)
            (dict_get_or d (str "entities") (JArr [])) = Ok example
          /\ intents_lookup m (JStr (str "unknown_intent")) = Some exs
          /\ example ∈ exs).
Proof.
  split; [vm_compute; reflexivity |].
  intros anns m d raw Hconv Hin Hnone Htext Hne.
  unfold rasa_intents in Hconv. cbn [py_iter rbind] in Hconv.
  destruct (rasa_loop_record_Ok h anns [] m (JObj d) Hconv Hin) as [r Hr].
  pose proof Hr as Hr'. unfold rasa_record in Hr'.
  cbn [py_as_dict rbind] in Hr'. rewrite Htext in Hr'.
  cbn [py_strip_attr rbind] in Hr'.
  rewrite bool_decide_eq_false_2 in Hr' by exact Hne.
  destruct (rasa_example h (py_strip raw)
              (dict_get_or d (str "entities") (JArr [])))
    as [example|x]; cbn [rbind] in Hr'; [| discriminate Hr'].
  injection Hr' as <-.
  unfold dict_get_or in Hr at 1. rewrite Hnone in Hr.
  exists example.
  destruct (rasa_loop_groups h anns [] m (JObj d)
              (JStr (str "unknown_intent")) example Hconv Hin Hr)
    as (exs & Hl & Hex); [reflexivity |].
  exists exs. split; [reflexivity |]. split; [exact Hl | exact Hex].
Qed.

(** A store with two records that have no intent key, among records that
    have one. *)
Lemma rasa_groups_by_intent_witness :
  let anns :=
    [sample_record;
     JObj [(str "text", JStr (str " hello there "))];
     JObj [(str "text", JStr (str "to rome"));
           (str "intent", JStr (str "book_flight"));
           (str "entities", JArr [sample_entity 3 7 "city"])];
     JObj [(str "text", JStr (str "bye"))]] in
  let m :=
    [(JStr (str "book_flight"),
      [str "book a flight to [paris](city)"; str "to [rome](city)"]);
     (JStr (str "unknown_intent"), [str "hello there"; str "bye"])] in
  rasa_intents plain_host (JArr anns) = Ok m
  /\ exists (example : pystr) (exs : list pystr),
       example = str "hello there"
       /\ intents_lookup m (JStr (str "unknown_intent")) = Some exs
       /\ example ∈ exs.
Proof.
  intros anns m.
  assert (rasa_intents plain_host (JArr anns) = Ok m) as Hconv
    by (vm_compute; reflexivity).
  split; [exact Hconv |].
  destruct (rasa_groups_by_intent plain_host) as [_ Hunknown].
  destruct (Hunknown anns m [(str "text", JStr (str " hello there "))]
              (str " hello there ") Hconv)
    as (example & exs & Hex & Hl & Hin).
  - right. left.
  - reflexivity.
  - reflexivity.
  - vm_compute. discriminate.
  - exists example, exs. split; [| split; [exact Hl | exact Hin]].
    vm_compute in Hex. injection Hex as <-. vm_compute. reflexivity.
Defined.

Example rasa_groups_unknown_intent :
  rasa_intents plain_host
    (JArr [sample_record;
           JObj [(str "text", JStr (str " hello there "))];
           JObj [(str "text", JStr (str "to rome"));
                 (str "intent", JStr (str "book_flight"));
                 (str "entities", JArr [sample_entity 3 7 "city"])];
           JObj [(str "text", JStr (str "bye"))]])
  = Ok [(JStr (str "book_flight"),
         [str "book a flight to [paris](city)"; str "to [rome](city)"]);
        (JStr (str "unknown_intent"), [str "hello there"; str "bye"])].
Proof. vm_compute. reflexivity. Qed.

(** Two records whose intent is the NaN of the decoder are in one block. *)
Example rasa_groups_nan_intent :
  rasa_intents plain_host
    (JArr [JObj [(str "text", JStr (str "a")); (str "intent", JFloat S754_nan)];
           JObj [(str "text", JStr (str "b")); (str "intent", JFloat S754_nan)]])
  = Ok [(JFloat S754_nan, [str "a"; str "b"])].
Proof. vm_compute. reflexivity. Qed.

(** ** Paths of the Rasa adapter *)

Lemma path_join_name (d : pystr) (c : ascii) (x : pystr) :
  c <> "/"%char -> path_join d (c :: x) = path_join d [] ++ c :: x.
Proof.
  intros Hc. unfold path_join.
  destruct (chr_eqb c "/"%char) eqn:E; [apply chr_eqb_eq in E; contradiction |].
  assert (match c :: x with
          | "/"%char :: _ => true
          | _ => false
          end = false) as Hhead.
  { destruct c as [[] [] [] [] [] [] [] []]; try reflexivity.
    exfalso. apply Hc. reflexivity. }
  destruct c as [[] [] [] [] [] [] [] []];
    try (destruct (last d) as [c'|]; [destruct (chr_eqb c' "/"%char) |];
         rewrite <- ?app_assoc; reflexivity).
  discriminate Hhead.
Qed.

#[local] Transparent str.

Lemma log_file_eq (h : host) (base_dir : pystr) :
  log_file h base_dir
  = path_join (dest_models_dir base_dir) []
    ++ str "training_log_" ++ int_to_str (time_log h) ++ str ".txt".
Proof. unfold log_file. apply path_join_name. discriminate. Qed.

Lemma dest_path_eq (h : host) (base_dir : pystr) :
  dest_path h base_dir
  = path_join (dest_models_dir base_dir) []
    ++ str "model_v" ++ int_to_str (time_log h) ++ str ".tar.gz".
Proof. unfold dest_path, dest_name. apply path_join_name. discriminate. Qed.

Lemma meta_file_eq (base_dir : pystr) :
  meta_file base_dir
  = path_join (dest_models_dir base_dir) [] ++ str "metadata.json".
Proof. unfold meta_file. apply path_join_name. discriminate. Qed.

Lemma log_file_not_dest_path (h : host) (base_dir : pystr) :
  log_file h base_dir <> dest_path h base_dir.
Proof.
  rewrite log_file_eq, dest_path_eq. intros H.
  apply app_inv_head in H. discriminate H.
Qed.

Lemma log_file_not_meta_file (h : host) (base_dir : pystr) :
  log_file h base_dir <> meta_file base_dir.
Proof.
  rewrite log_file_eq, meta_file_eq. intros H.
  apply app_inv_head in H. discriminate H.
Qed.

Lemma dest_path_not_meta_file (h : host) (base_dir : pystr) :
  dest_path h base_dir <> meta_file base_dir.
Proof.
  rewrite dest_path_eq, meta_file_eq. intros H.
  apply app_inv_head in H. discriminate H.
Qed.

Lemma backup_file_not_nlu_file (h : host) (base_dir : pystr) :
  backup_file h base_dir <> nlu_file h base_dir.
Proof.
  unfold backup_file. intros H.
  rewrite <- (app_nil_r (nlu_file h base_dir)) in H at 2.
  apply app_inv_head in H. discriminate H.
Qed.

Lemma strip_prefix_Some (a p n : pystr) :
  strip_prefix a p = Some n <-> p = a ++ n.
Proof.
  revert p. induction a as [|c a IH]; intros p; cbn [strip_prefix app].
  - split; [intros [= ->] | intros ->]; reflexivity.
  - destruct p as [|c' p]; [split; discriminate |].
    destruct (chr_eqb c c') eqn:E.
    + apply chr_eqb_eq in E as <-. rewrite IH.
      split; [intros -> | intros [= ->]]; reflexivity.
    + apply chr_eqb_neq in E.
      split; [discriminate | intros [= <- _]; contradiction].
Qed.

Lemma ends_with_app (suffix s : pystr) :
  ends_with suffix s = true <-> exists pre, s = pre ++ suffix.
Proof.
  unfold ends_with. split.
  - destruct (strip_prefix (rev suffix) (rev s)) as [r|] eqn:E;
      [| discriminate].
    intros _. apply strip_prefix_Some in E.
    exists (rev r). rewrite <- (rev_involutive s), E, rev_app_distr.
    rewrite rev_involutive. reflexivity.
  - intros [pre ->].
    rewrite rev_app_distr, (proj2 (strip_prefix_Some _ _ (rev pre)));
      reflexivity.
Qed.

(** The log is no archive. *)
Lemma log_file_no_archive (h : host) (base_dir dir : pystr) :
  glob_match dir (str ".tar.gz") (log_file h base_dir) = false.
Proof.
  unfold glob_match.
  destruct (strip_prefix (path_join dir []) (log_file h base_dir))
    as [name|] eqn:E; [| reflexivity].
  unfold star_match.
  destruct (ends_with (str ".tar.gz") name) eqn:Hend; [| reflexivity].
  exfalso. apply ends_with_app in Hend as [pre ->].
  apply strip_prefix_Some in E. rewrite log_file_eq in E.
  apply (f_equal last) in E. revert E.
  change (str ".txt") with (str ".tx" ++ ["t"%char]).
  change (str ".tar.gz") with (str ".tar.g" ++ ["z"%char]).
  rewrite !app_assoc, !last_snoc. discriminate.
Qed.

#[local] Opaque str.

(** ** The latest archive *)

Lemma elem_of_glob_star (st : fs) (dir suffix p : pystr) :
  p ∈ glob_star st dir suffix
  <-> is_Some (st !! p) /\ glob_match dir suffix p = true.
Proof.
  unfold glob_star. rewrite list_elem_of_filter, list_elem_of_fmap.
  split.
  - intros [Hm ([p' f] & -> & Hin)]. split; [| exact Hm].
    apply elem_of_map_to_list in Hin. eauto.
  - intros [[f Hf] Hm]. split; [exact Hm |].
    exists (p, f). split; [reflexivity |].
    apply elem_of_map_to_list, Hf.
Qed.

Lemma glob_star_insert (st : fs) (dir suffix p q : pystr) (f : file) :
  glob_match dir suffix q = false ->
  p ∈ glob_star (<[q := f]> st) dir suffix <-> p ∈ glob_star st dir suffix.
Proof.
  intros Hq. rewrite !elem_of_glob_star.
  destruct (decide (q = p)) as [-> | Hne].
  - rewrite Hq. split; intros [_ H]; discriminate H.
  - rewrite lookup_insert_ne by exact Hne. reflexivity.
Qed.

Lemma glob_star_is_dir (st : fs) (dir p : pystr) :
  p ∈ glob_star st dir (str ".tar.gz") -> is_dir st dir = true.
Proof.
  intros Hp. unfold is_dir. apply existsb_exists. exists p.
  assert (p ∈ map fst (map_to_list st)) as Hin.
  { unfold glob_star in Hp. apply list_elem_of_filter in Hp as [_ Hp].
    exact Hp. }
  split; [apply list_elem_of_In, Hin |].
  apply elem_of_glob_star in Hp as [_ Hm]. unfold glob_match in Hm.
  destruct (strip_prefix (path_join dir []) p) as [[|c name]|];
    [| reflexivity | discriminate Hm].
  vm_compute in Hm. discriminate Hm.
Qed.

Lemma glob_star_nonempty_path (st : fs) (dir p : pystr) :
  p ∈ glob_star st dir (str ".tar.gz") -> p <> [].
Proof.
  intros Hp. apply elem_of_glob_star in Hp as [_ Hm]. unfold glob_match in Hm.
  destruct (strip_prefix (path_join dir []) p) as [name|] eqn:E;
    [| discriminate Hm].
  apply strip_prefix_Some in E. subst p.
  destruct name as [|c name]; [vm_compute in Hm; discriminate Hm |].
  intros H. apply app_eq_nil in H as [_ H]. discriminate H.
Qed.

(** The first item of a descending sort has the greatest key. *)
Lemma py_sorted_head_max {A} (key : A -> result Z) (l l' : list A) :
  py_sorted true key l = Ok l' ->
  l <> [] ->
  exists x,
    head l' = Some x /\ x ∈ l
    /\ forall y ky kx,
         y ∈ l -> key y = Ok ky -> key x = Ok kx -> ky <= kx.
Proof.
  unfold py_sorted. intros Hs Hne.
  apply rbind_Ok in Hs as (kl & Hkl & Hs). injection Hs as <-.
  apply keyed_Ok in Hkl as [Hsnd Hkeys].
  pose proof (sort_keyed_perm kl) as Hperm.
  pose proof (sort_keyed_sorted kl) as Hsorted.
  destruct (sort_keyed kl) as [|[k0 x0] rest] eqn:E.
  { apply Permutation_nil_l in Hperm. subst kl. cbn in Hsnd. congruence. }
  exists x0. cbn [map head snd]. split; [reflexivity |].
  assert ((k0, x0) ∈ kl) as Hin0 by (rewrite <- Hperm; left).
  split.
  { rewrite <- Hsnd. apply list_elem_of_fmap. exists (k0, x0). auto. }
  intros y ky kx Hy Hky Hkx.
  rewrite <- Hsnd in Hy. apply list_elem_of_fmap in Hy as ([k1 y1] & -> & Hin1).
  cbn [snd] in Hky.
  rewrite Forall_forall in Hkeys.
  pose proof (Hkeys _ Hin0) as H0. pose proof (Hkeys _ Hin1) as H1.
  cbn [fst snd] in H0, H1. rewrite Hkx in H0. rewrite Hky in H1.
  cbn [rbind] in H0, H1. injection H0 as <-. injection H1 as <-.
  rewrite <- Hperm in Hin1. apply elem_of_cons in Hin1 as [Heq | Hrest].
  - injection Heq as Hk _. lia.
  - apply StronglySorted_inv in Hsorted as [_ Hall].
    rewrite Forall_forall in Hall. specialize (Hall _ Hrest).
    unfold key_le in Hall. cbn [fst] in Hall. lia.
Qed.

Lemma keyed_getmtime (st : fs) (l : list pystr) :
  Forall (fun p => is_Some (st !! p)) l ->
  exists l', py_sorted true (getmtime st) l = Ok l'.
Proof.
  intros Hl. unfold py_sorted.
  destruct (keyed_exists
              (fun x => rbind (getmtime st x) (fun k => Ok (- k))) l)
    as (kl & Hkl & _).
  { eapply Forall_impl; [exact Hl |]. intros p [f Hf].
    unfold getmtime. rewrite Hf. eexists. reflexivity. }
  rewrite Hkl. cbn [rbind]. eauto.
Qed.

(** [find_latest_rasa_model] finds nothing when the models directory holds
    no archive, and otherwise an archive whose modification time no
    archive exceeds. *)
Lemma find_latest_rasa_model_spec (st : fs) (project : pystr) :
  let archives :=
    glob_star st (path_join project (str "models")) (str ".tar.gz") in
  (archives = [] -> find_latest_rasa_model st project = Ok None)
  /\ (archives <> [] ->
      exists latest f,
        find_latest_rasa_model st project = Ok (Some latest)
        /\ latest ∈ archives /\ latest <> []
        /\ st !! latest = Some f
        /\ forall p g, p ∈ archives -> st !! p = Some g ->
                       f_mtime g <= f_mtime f).
Proof.
  intros archives. unfold find_latest_rasa_model. fold archives. split.
  - intros ->. destruct (negb (is_dir st _)); reflexivity.
  - intros Hne.
    destruct archives as [|p0 rest] eqn:Harch; [contradiction |].
    assert (p0 ∈ archives) as Hp0 by (rewrite Harch; left).
    rewrite (glob_star_is_dir st _ p0 Hp0). cbn [negb].
    rewrite <- Harch.
    destruct (keyed_getmtime st archives) as [sorted Hsorted].
    { apply Forall_forall. intros p Hp.
      apply elem_of_glob_star in Hp as [Hp _]. exact Hp. }
    rewrite Hsorted. cbn [rbind].
    destruct (py_sorted_head_max (getmtime st) archives sorted Hsorted)
      as (latest & Hhead & Hin & Hmax).
    { rewrite Harch. discriminate. }
    pose proof Hin as Hin'.
    apply elem_of_glob_star in Hin' as [[f Hf] _].
    exists latest, f. rewrite Hhead.
    split; [reflexivity |]. split; [exact Hin |].
    split; [eapply glob_star_nonempty_path, Hin |].
    split; [exact Hf |].
    intros p g Hp Hg. apply (Hmax p); [exact Hp | |];
      unfold getmtime; [rewrite Hg | rewrite Hf]; reflexivity.
Qed.

(** ** The Rasa trainer *)

Section Rasa.

Variable h : host.
Variable base_dir : pystr.

(** A run that reaches the subprocess has read the store, converted it and
    written [nlu.yml]; the backup is a copy of the file just written. *)
Lemma rasa_prepare_Ok (st0 st1 : fs) :
  rasa_prepare h base_dir st0 = (Ok tt, st1) ->
  exists fh annotations m,
    st0 !! annotations_file base_dir = Some fh
    /\ json_load h (f_content fh) = inl annotations
    /\ rasa_intents h annotations = Ok m
    /\ st1 = <[backup_file h base_dir := converted_nlu h base_dir m]>
               (<[nlu_file h base_dir := converted_nlu h base_dir m]> st0).
Proof.
  unfold rasa_prepare, io_bind at 1, io_state at 1.
  destruct (st0 !! annotations_file base_dir) as [fh|]; [| discriminate].
  unfold io_bind at 1.
  destruct (json_load h (f_content fh)) as [annotations|msg] eqn:Hload;
    cbn [io_external io_ret io_raise]; [| discriminate].
  unfold io_bind at 1, annotations_to_rasa_nlu, io_bind at 1, io_lift.
  destruct (rasa_intents h annotations) as [m|x] eqn:Hconv; [| discriminate].
  unfold io_bind at 1, write_file at 1, io_ret at 1.
  unfold io_try_pass, io_bind, io_state, fs_exists.
  fold (nlu_file h base_dir). fold (converted_nlu h base_dir m).
  rewrite lookup_insert_eq.
  rewrite bool_decide_eq_true_2 by eauto.
  unfold copy2. rewrite lookup_insert_eq. cbn [snd].
  intros [= <-]. exists fh, annotations, m. auto.
Qed.

Lemma train_rasa_model_run (st0 st1 st2 : fs) (proc : completed_process) :
  rasa_prepare h base_dir st0 = (Ok tt, st1) ->
  subprocess_run h (rasa_cmd h) (rasa_project_path h base_dir) st1
  = (proc, st2) ->
  train_rasa_model h base_dir st0 = rasa_finish h base_dir proc st2.
Proof.
  intros Hprep Hrun. unfold train_rasa_model, io_bind at 1.
  rewrite Hprep. unfold io_bind at 1, run_rasa. rewrite Hrun. reflexivity.
Qed.

Lemma rasa_finish_failure (proc : completed_process) (st : fs) :
  returncode proc <> 0 ->
  rasa_finish h base_dir proc st
  = (Raise (SubprocessFailure
              (failure_message h base_dir (or_empty (proc_stdout proc))
                               (or_empty (proc_stderr proc)))),
     <[log_file h base_dir := training_log h base_dir proc]> st).
Proof.
  intros Hrc. unfold rasa_finish, io_bind at 1, write_file at 1.
  apply Z.eqb_neq in Hrc. rewrite Hrc. reflexivity.
Qed.

(** Whatever the return code, the log is in the file system the run
    leaves. *)
Lemma rasa_finish_log (proc : completed_process) (st : fs) :
  (rasa_finish h base_dir proc st).2 !! log_file h base_dir
  = Some (training_log h base_dir proc).
Proof.
  unfold rasa_finish, io_bind at 1, write_file at 1.
  fold (training_log h base_dir proc).
  set (st3 := <[log_file h base_dir := training_log h base_dir proc]> st).
  assert (st3 !! log_file h base_dir = Some (training_log h base_dir proc))
    as Hlog
    by apply lookup_insert_eq.
  destruct (negb (returncode proc =? 0)); [exact Hlog |].
  unfold io_bind at 1, io_state, io_bind at 1, io_lift.
  destruct (find_latest_rasa_model st3 (rasa_project_path h base_dir))
    as [[[|c latest]|]|x]; try exact Hlog.
  unfold io_bind at 1, copy2.
  destruct (st3 !! _) as [f|] in |- * at 1; [| exact Hlog].
  unfold io_bind, write_file, io_ret. cbn [snd].
  rewrite lookup_insert_ne by (apply not_eq_sym, log_file_not_meta_file).
  rewrite lookup_insert_ne by (apply not_eq_sym, log_file_not_dest_path).
  exact Hlog.
Qed.

End Rasa.

Lemma py_slice_to_take {A} (l : list A) (b : Z) :
  0 <= b -> py_slice_to l b = take (Z.to_nat b) l.
Proof.
  intros Hb. unfold py_slice_to, clamp_index.
  destruct (b <? 0) eqn:E; [apply Z.ltb_lt in E; lia |].
  destruct (Z.le_ge_cases b (Z.of_nat (length l))) as [Hle | Hge].
  - rewrite Z.min_l by exact Hle. reflexivity.
  - rewrite Z.min_r by exact Hge. rewrite Nat2Z.id.
    rewrite !take_ge by lia. reflexivity.
Qed.

Lemma or_empty_default (o : option pystr) : or_empty o = default [] o.
Proof. destruct o as [[|c s]|]; reflexivity. Qed.

(** C6.  In a run that reaches the subprocess, the log is in the file
    system the run leaves, whatever the return code: it is the file
    [training_log_<ts>.txt] of the local model directory, [ts] being the
    time read after the subprocess has returned, and it holds the command
    that was run, the working directory it was run in, and what the
    subprocess printed on each stream, each under its header, a stream that
    printed nothing giving an empty part.  When the return code is not zero
    the run raises the failure of line 246, whose message holds the path
    of the log and, of each stream, its first 4000 characters (the whole
    stream when it is shorter). *)
Theorem rasa_failure_is_logged (h : host) (base_dir : pystr)
  (st0 st1 st2 : fs) (proc : completed_process) :
  rasa_prepare h base_dir st0 = (Ok tt, st1) ->
  subprocess_run h (rasa_cmd h) (rasa_project_path h base_dir) st1
  = (proc, st2) ->
  let stdout : pystr := default [] (proc_stdout proc) in
  let stderr : pystr := default [] (proc_stderr proc) in
  let log_path : pystr :=
    path_join (path_join (path_join base_dir (str "models"))
                         (str "rasa_model"))
              (str "training_log_" ++ int_to_str (time_log h) ++ str ".txt") in
  let out := train_rasa_model h base_dir st0 in
  (exists f,
     out.2 !! log_path = Some f
     /\ f_content f
        = str "CMD: " ++ py_join (str " ") (rasa_cmd h) ++ [NL; NL]
          ++ str "CWD: " ++ rasa_project_path h base_dir ++ [NL; NL]
          ++ str "=== STDOUT ===" ++ [NL] ++ stdout ++ [NL; NL]
          ++ str "=== STDERR ===" ++ [NL] ++ stderr ++ [NL])
  /\ (returncode proc <> 0 ->
      out.1 = Raise (SubprocessFailure
                (str "Rasa training failed. See training log: "
                 ++ log_path
                 ++ [NL; NL] ++ str "STDERR:" ++ [NL] ++ take 4000 stderr
                 ++ [NL; NL] ++ str "STDOUT:" ++ [NL] ++ take 4000 stdout))).
Proof.
  intros Hprep Hrun stdout stderr log_path out. subst out.
  rewrite (train_rasa_model_run h base_dir st0 st1 st2 proc Hprep Hrun).
  change log_path with (log_file h base_dir).
  split.
  - exists (training_log h base_dir proc).
    split; [apply rasa_finish_log |].
    cbn [training_log f_content]. unfold log_content.
    rewrite !or_empty_default, <- !app_assoc. reflexivity.
  - intros Hrc. rewrite (rasa_finish_failure h base_dir proc st2 Hrc).
    cbn [fst]. unfold failure_message.
    rewrite !py_slice_to_take, !or_empty_default by lia. reflexivity.
Qed.

Lemma glob_star_log (h : host) (base_dir dir : pystr) (st : fs) (f : file)
  (p : pystr) :
  p ∈ glob_star (<[log_file h base_dir := f]> st) dir (str ".tar.gz")
  <-> p ∈ glob_star st dir (str ".tar.gz").
Proof. apply glob_star_insert, log_file_no_archive. Qed.

Lemma archive_lookup_log (h : host) (base_dir dir : pystr) (st : fs)
  (f : file) (p : pystr) :
  p ∈ glob_star st dir (str ".tar.gz") ->
  <[log_file h base_dir := f]> st !! p = st !! p.
Proof.
  intros Hp. apply lookup_insert_ne. intros <-.
  apply elem_of_glob_star in Hp as [_ Hm].
  rewrite log_file_no_archive in Hm. discriminate Hm.
Qed.

Lemma rasa_finish_zero (h : host) (base_dir : pystr)
  (proc : completed_process) (st : fs) :
  returncode proc = 0 ->
  rasa_finish h base_dir proc st
  = let st3 := <[log_file h base_dir := training_log h base_dir proc]> st in
    match find_latest_rasa_model st3 (rasa_project_path h base_dir) with
    | Raise x => (Raise x, st3)
    | Ok (Some (c :: l)) =>
        let latest : pystr := c :: l in
        match st3 !! latest with
        | Some f =>
            (Ok (dest_path h base_dir),
             <[meta_file base_dir :=
                 {| f_content :=
                      json_dump h
                        (rasa_metadata h base_dir latest
                           (or_empty (proc_stdout proc))
                           (or_empty (proc_stderr proc)));
                    f_mtime := stamp h (meta_file base_dir) |}]>
               (<[dest_path h base_dir := f]> st3))
        | None => (Raise (Builtin OSError), st3)
        end
    | Ok _ =>
        (Raise (ArtifactNotFound
                  (str "Rasa trained but no model file found in rasa_project/models. See log: "
                   ++ log_file h base_dir)), st3)
    end.
Proof.
  intros Hrc. unfold rasa_finish, io_bind at 1, write_file at 1.
  rewrite Hrc. cbn [Z.eqb negb]. fold (training_log h base_dir proc).
  cbv zeta.
  unfold io_bind at 1, io_state, io_bind at 1, io_lift.
  destruct (find_latest_rasa_model _ _) as [[[|c l]|]|x]; try reflexivity.
  unfold io_bind at 1, copy2.
  match goal with
  | |- context [match ?x with Some _ => _ | None => _ end] => destruct x
  end; reflexivity.
Qed.

(** C7.  In a run whose subprocess returns zero: when the models directory
    of the project holds no archive the run raises the failure of line
    258; otherwise an archive whose modification time no archive exceeds
    is copied as [model_v<ts>.tar.gz] into the local model directory, the
    file [metadata.json] of that directory is written with the timestamp,
    the name of the copy, the path of the archive, the path of the log and
    the first 4000 characters of each stream, and the run returns the path
    of the copy. *)
Theorem rasa_success_collects_latest (h : host) (base_dir : pystr)
  (st0 st1 st2 : fs) (proc : completed_process) :
  rasa_prepare h base_dir st0 = (Ok tt, st1) ->
  subprocess_run h (rasa_cmd h) (rasa_project_path h base_dir) st1
  = (proc, st2) ->
  returncode proc = 0 ->
  let archives :=
    glob_star st2 (path_join (rasa_project_path h base_dir) (str "models"))
              (str ".tar.gz") in
  let stdout : pystr := default [] (proc_stdout proc) in
  let stderr : pystr := default [] (proc_stderr proc) in
  let ts : pystr := int_to_str (time_log h) in
  let dest_dir : pystr :=
    path_join (path_join base_dir (str "models")) (str "rasa_model") in
  let copy_name : pystr := str "model_v" ++ ts ++ str ".tar.gz" in
  let copy_path : pystr := path_join dest_dir copy_name in
  let log_path : pystr :=
    path_join dest_dir (str "training_log_" ++ ts ++ str ".txt") in
  let meta_path : pystr := path_join dest_dir (str "metadata.json") in
  let out := train_rasa_model h base_dir st0 in
  (archives = [] ->
   out.1 = Raise (ArtifactNotFound
             (str "Rasa trained but no model file found in rasa_project/models. See log: "
              ++ log_path)))
  /\ (archives <> [] ->
      exists latest f,
        latest ∈ archives
        /\ st2 !! latest = Some f
        /\ (forall p g, p ∈ archives -> st2 !! p = Some g ->
                        f_mtime g <= f_mtime f)
        /\ out.1 = Ok copy_path
        /\ out.2 !! copy_path = Some f
        /\ exists meta,
             out.2 !! meta_path = Some meta
             /\ f_content meta
                = json_dump h
                    (JObj [(str "info",
                            JObj [(str "name", JStr (str "rasa_model"));
                                  (str "trained_at", JInt (time_log h));
                                  (str "version", JStr (str "v" ++ ts))]);
                           (str "file", JStr copy_name);
                           (str "original_model_path", JStr latest);
                           (str "training_log", JStr log_path);
                           (str "rasa_stdout_snippet",
                            JStr (take 4000 stdout));
                           (str "rasa_stderr_snippet",
                            JStr (take 4000 stderr))])).
Proof.
  intros Hprep Hrun Hrc archives stdout stderr ts dest_dir copy_name
    copy_path log_path meta_path out.
  subst out.
  rewrite (train_rasa_model_run h base_dir st0 st1 st2 proc Hprep Hrun).
  rewrite (rasa_finish_zero h base_dir proc st2 Hrc). cbv zeta.
  change copy_path with (dest_path h base_dir).
  change meta_path with (meta_file base_dir).
  change log_path with (log_file h base_dir).
  set (st3 := <[log_file h base_dir := training_log h base_dir proc]> st2).
  destruct (find_latest_rasa_model_spec st3 (rasa_project_path h base_dir))
    as [Hnone Hsome].
  split.
  - intros Hempty. rewrite Hnone; [reflexivity |].
    apply elem_of_nil_inv. intros p Hp.
    apply glob_star_log in Hp. fold archives in Hp. rewrite Hempty in Hp.
    apply elem_of_nil in Hp. exact Hp.
  - intros Hne.
    destruct Hsome as (latest & f & Hfind & Hin & Hnonempty & Hf & Hmax).
    { intros Hempty. apply Hne. apply elem_of_nil_inv. intros p Hp.
      apply (glob_star_log h base_dir _ st2 (training_log h base_dir proc))
        in Hp.
      fold st3 in Hp. rewrite Hempty in Hp. apply elem_of_nil in Hp.
      exact Hp. }
    apply glob_star_log in Hin. fold archives in Hin.
    exists latest, f. split; [exact Hin |].
    assert (st2 !! latest = Some f) as Hf2.
    { rewrite <- Hf. symmetry. eapply archive_lookup_log, Hin. }
    split; [exact Hf2 |].
    split.
    { intros p g Hp Hg. apply (Hmax p).
      - apply glob_star_log. exact Hp.
      - unfold st3. erewrite archive_lookup_log; eassumption. }
    rewrite Hfind. destruct latest as [|c latest]; [contradiction |].
    rewrite Hf. cbn [fst snd].
    split; [reflexivity |].
    split.
    + rewrite lookup_insert_ne
        by (apply not_eq_sym, dest_path_not_meta_file).
      apply lookup_insert_eq.
    + eexists. split; [apply lookup_insert_eq |].
      cbn [f_content]. unfold rasa_metadata.
      rewrite !py_slice_to_take, !or_empty_default by lia. reflexivity.
Qed.

(** A failed run whose subprocess printed on its standard output only. *)
Lemma rasa_failure_is_logged_witness :
  let h := sample_host (JArr [sample_record]) (sample_proc 1) [] in
  let out := train_rasa_model h sample_base sample_fs in
  f_content
    <$> out.2 !! str "/app/backend/models/rasa_model/training_log_1700000060.txt"
  = Some (str "CMD: rasa train nlu

CWD: /srv/bot

=== STDOUT ===
training NLU model

=== STDERR ===

")
  /\ out.1
     = Raise (SubprocessFailure (str "Rasa training failed. See training log: /app/backend/models/rasa_model/training_log_1700000060.txt

STDERR:


STDOUT:
training NLU model")).
Proof.
  intros h out.
  destruct (rasa_failure_is_logged h sample_base sample_fs
              (rasa_prepare h sample_base sample_fs).2
              (subprocess_run h (rasa_cmd h) (rasa_project_path h sample_base)
                 (rasa_prepare h sample_base sample_fs).2).2
              (sample_proc 1)) as [(f & Hf & Hcontent) Hfail].
  - apply pair_eta_fst. vm_compute. reflexivity.
  - apply pair_eta_fst. vm_compute. reflexivity.
  - split.
    + replace (str "/app/backend/models/rasa_model/training_log_1700000060.txt")
        with (path_join
                (path_join (path_join sample_base (str "models"))
                           (str "rasa_model"))
                (str "training_log_" ++ int_to_str (time_log h) ++ str ".txt"))
        by (vm_compute; reflexivity).
      fold out in Hf. rewrite Hf. cbn [fmap option_fmap option_map].
      rewrite Hcontent. vm_compute. reflexivity.
    + fold out in Hfail. rewrite Hfail by (vm_compute; discriminate).
      vm_compute. reflexivity.
Defined.

(** A run that succeeds with two archives in the project. *)
Lemma rasa_success_collects_latest_witness :
  let h := report_host (JArr [sample_record]) (noisy_proc 0) sample_archives in
  let out := train_rasa_model h sample_base sample_fs in
  out.1 = Ok (str "/app/backend/models/rasa_model/model_v1700000060.tar.gz")
  /\ f_content
       <$> out.2 !! str "/app/backend/models/rasa_model/model_v1700000060.tar.gz"
     = Some (str "archive two")
  /\ f_content
       <$> out.2 !! str "/app/backend/models/rasa_model/metadata.json"
     = Some (str "info={name=rasa_model;trained_at=1700000060;version=v1700000060;};file=model_v1700000060.tar.gz;original_model_path=/srv/bot/models/nlu-2.tar.gz;training_log=/app/backend/models/rasa_model/training_log_1700000060.txt;rasa_stdout_snippet=training NLU model;rasa_stderr_snippet=warning: no pipeline;").
Proof.
  intros h out.
  destruct (rasa_success_collects_latest h sample_base sample_fs
              (rasa_prepare h sample_base sample_fs).2
              (subprocess_run h (rasa_cmd h) (rasa_project_path h sample_base)
                 (rasa_prepare h sample_base sample_fs).2).2
              (noisy_proc 0)) as [_ Hsome].
  - apply pair_eta_fst. vm_compute. reflexivity.
  - apply pair_eta_fst. vm_compute. reflexivity.
  - reflexivity.
  - destruct Hsome as (latest & f & _ & _ & _ & Hout & _ & _).
    + vm_compute. discriminate.
    + fold out in Hout. split; [rewrite Hout; vm_compute; reflexivity |].
      split; vm_compute; reflexivity.
Defined.

Example rasa_no_archive :
  let h := sample_host (JArr [sample_record]) (sample_proc 0) [] in
  (train_rasa_model h sample_base sample_fs).1
  = Raise (ArtifactNotFound
             (str "Rasa trained but no model file found in rasa_project/models. See log: /app/backend/models/rasa_model/training_log_1700000060.txt")).
Proof. vm_compute. reflexivity. Qed.

(** ** The backup of [nlu.yml] *)

(** The backup is taken at line 218, after line 211 has written the new
    [nlu.yml]: in every run that reaches the subprocess both paths hold
    the document just converted, whatever the file system held before. *)
Lemma rasa_backup_is_copy_of_new_file (h : host) (base_dir : pystr)
  (st0 st1 : fs) :
  rasa_prepare h base_dir st0 = (Ok tt, st1) ->
  exists m,
    st1 !! nlu_file h base_dir = Some (converted_nlu h base_dir m)
    /\ st1 !! backup_file h base_dir = Some (converted_nlu h base_dir m).
Proof.
  intros Hprep.
  apply rasa_prepare_Ok in Hprep as (fh & anns & m & _ & _ & _ & ->).
  exists m. split.
  - rewrite lookup_insert_ne by apply backup_file_not_nlu_file.
    apply lookup_insert_eq.
  - apply lookup_insert_eq.
Qed.

(** C1 fails on the code.  With an earlier [nlu.yml] in the project, the
    run succeeds and the backup holds the newly converted document, not
    the content the file had before the run. *)
Theorem rasa_backup_taken_after_overwrite :
  let h := sample_host (JArr [sample_record]) (sample_proc 0) sample_archives in
  let out := train_rasa_model h sample_base sample_fs in
  let new_document :=
    str "version: 2.0
- intent: book_flight
  examples: |
  - book a flight to [paris](city)
" in
  f_content <$> sample_fs !! nlu_file h sample_base
  = Some (str "version: 2.0 (earlier data)")
  /\ out.1 = Ok (dest_path h sample_base)
  /\ f_content <$> out.2 !! nlu_file h sample_base = Some new_document
  /\ f_content <$> out.2 !! backup_file h sample_base = Some new_document
  /\ f_content <$> out.2 !! backup_file h sample_base
     <> f_content <$> sample_fs !! nlu_file h sample_base.
Proof.
  repeat split; try (vm_compute; reflexivity).
  vm_compute. discriminate.
Qed.

(** ** More on the Rasa converter *)



Section RasaStore.

Variable h : host.











End RasaStore.

Section RasaOrder.

Variable h : host.





End RasaOrder.






(** ** Size of an example *)

#[local] Transparent str.




#[local] Opaque str.



(** ** No empty example *)







(** ** More on the spaCy conversion *)


Section SpacyStore.

Variable h : host.






End SpacyStore.



(** ** What the trainers leave behind *)



Section Leftovers.

Variable h : host.
Variable base_dir : pystr.


Lemma rasa_prepare_unit (st st' : fs) (u : unit) :
  rasa_prepare h base_dir st = (Ok u, st') ->
  rasa_prepare h base_dir st = (Ok tt, st').
Proof. destruct u. auto. Qed.





End Leftovers.




(** ** The routes *)



Section RouteFacts.

Variable h : host.
Variable json_dump_store : jval -> pystr.
Variable base_dir : pystr.
















End RouteFacts.







